(** * The layer store of registry/storage/layerstore.go

    The layer store is a facade: every method is a short straight-line
    sequence of calls to collaborators that live outside the file (the
    tombstone manager, the path mapper, the blob store, the storage driver,
    the file reader and writer constructors, the uuid generator and the
    clock), glued together by error handling.

    The embedding keeps that shape.  A method is a finite tree of calls
    ([prog]): each node is one call that leaves the file, each leaf a return
    statement.  The collaborators are given a meaning separately, by a
    [handler] over a state of the world, so that a statement about the layer
    store can quantify over every behaviour of the collaborators, and the
    order and the number of the calls a method makes can be read off its
    [trace]. *)

From Stdlib Require Import ZArith List String Ascii Bool Lia.
From Stdlib.Strings Require Import Byte.
From stdpp Require Import gmap strings.

Import ListNotations.
Local Open Scope string_scope.
Local Open Scope list_scope.
Local Open Scope Z_scope.

(** ** Data *)

(** [digest.Digest] is declared as [type Digest string]. *)
Definition Digest : Type := string.

(** The error values the file distinguishes by a type switch, the two it
    builds itself, and every other error (driver failures, malformed
    identifiers, [*time.ParseError]), which it only passes along. *)
Inductive error : Type :=
| ErrUnknownLayer (BlobSum : Digest)   (* distribution.ErrUnknownLayer{FSLayer{BlobSum}} *)
| ErrLayerUploadUnknown                (* distribution.ErrLayerUploadUnknown *)
| PathNotFoundError (Path : string)    (* storagedriver.PathNotFoundError *)
| ParseError (value : string)          (* *time.ParseError *)
| OtherError (msg : string).

(** A Go result pair [(T, error)] whose value is the zero value whenever the
    error is not nil. *)
Definition result (T : Type) : Type := (T + error)%type.

(** [time.Time] after [.UTC()]: an instant, as whole seconds since the Unix
    epoch and the nanoseconds within that second. *)
Record Time : Type := mkTime { sec : Z; nsec : Z }.

(** Handles.  A storage driver is an interface value; the number tells the
    driver instances apart.  The path mapper is a struct of a root and a
    version, [defaultPathMapper] the package variable of that type. *)
Definition StorageDriver : Type := nat.

Record pathMapper : Type := { root : string; version : string }.

(** Modelled from the spec: the package variable [defaultPathMapper] is
    declared outside layerstore.go; section 9 calls it the process-wide
    default path scheme. *)
Definition defaultPathMapper : pathMapper :=
  {| root := "/docker/registry/"; version := "v2" |}.

Record blobStore : Type := { bs_driver : StorageDriver; bs_pm : pathMapper }.

Record repository : Type := {
  Name : string;
  driver : StorageDriver;
  pm : pathMapper;
  repo_blobStore : blobStore
}.

Record tombstone : Type := { tomb_pm : pathMapper; tomb_driver : StorageDriver }.

Record layerStore : Type := { ls_repository : repository; tomb : tombstone }.

(** The path specs the file hands to [pm.path]. *)
Inductive pathSpec : Type :=
| uploadDataPathSpec (name uuid : string)
| uploadStartedAtPathSpec (name uuid : string)
| layerLinkPathSpec (name : string) (digest : Digest).

Record FileInfo : Type := { fi_path : string; fi_size : Z }.

Record fileReader : Type := {
  fr_driver : StorageDriver; fr_path : string; fr_size : Z
}.

Record bufferedFileWriter : Type := {
  fw_driver : StorageDriver; fw_path : string; fw_size : Z
}.

Record layerReader : Type := { lr_fileReader : fileReader; lr_digest : Digest }.

(** Modelled from the spec: [setupResumableDigester] is a method of the
    layer writer declared outside layerstore.go; by section 4.4 it
    initialises the incremental hashing state of the session.  It is a call
    whose reply is the state the writer's digester field is set to ([None]
    where the build has no resumable digest), and it touches nothing else of
    the writer. *)
Definition digester : Type := list Byte.byte.

Record layerWriter : Type := {
  lw_layerStore : layerStore;
  lw_uuid : string;
  lw_startedAt : Time;
  lw_bufferedFileWriter : bufferedFileWriter;
  lw_tomb : tombstone;
  lw_resumableDigester : option digester
}.

Definition set_resumableDigester (dg : option digester) (lw : layerWriter) : layerWriter :=
  {| lw_layerStore := lw_layerStore lw;
     lw_uuid := lw_uuid lw;
     lw_startedAt := lw_startedAt lw;
     lw_bufferedFileWriter := lw_bufferedFileWriter lw;
     lw_tomb := lw_tomb lw;
     lw_resumableDigester := dg |}.

(** ** Calls that leave the file *)

Inductive call : Type :=
| tombstoneExists (t : tombstone) (name : string) (dgst : Digest)
| putTombstone (t : tombstone) (name : string) (dgst : Digest)
| pm_path (m : pathMapper) (spec : pathSpec)
| blobStore_resolve (bs : blobStore) (linkPath : string)
| driver_Stat (d : StorageDriver) (p : string)
| driver_GetContent (d : StorageDriver) (p : string)
| driver_PutContent (d : StorageDriver) (p : string) (content : list Byte.byte)
| newFileReader (d : StorageDriver) (p : string)
| newFileWriter (d : StorageDriver) (p : string)
| uuid_New
| time_Now_UTC
| setupResumableDigester (uuid : string).

(** What each call hands back.  A Go [error] result alone is [option error],
    [None] being nil. *)
Definition reply (c : call) : Type :=
  match c with
  | tombstoneExists _ _ _ => result bool
  | putTombstone _ _ _ => option error
  | pm_path _ _ => result string
  | blobStore_resolve _ _ => result string
  | driver_Stat _ _ => result FileInfo
  | driver_GetContent _ _ => result (list Byte.byte)
  | driver_PutContent _ _ _ => option error
  | newFileReader _ _ => result fileReader
  | newFileWriter _ _ => result bufferedFileWriter
  | uuid_New => string
  | time_Now_UTC => Time
  | setupResumableDigester _ => option digester
  end.

(** A method body: a return, or a call and what to do with its reply. *)
Inductive prog (R : Type) : Type :=
| Ret (r : R)
| Call (c : call) (k : reply c -> prog R).

Arguments Ret {R} r.
Arguments Call {R} c k.

Fixpoint bind {A B : Type} (p : prog A) (f : A -> prog B) : prog B :=
  match p with
  | Ret a => f a
  | Call c k => Call c (fun x => bind (k x) f)
  end.

Definition perform (c : call) : prog (reply c) := Call c Ret.

Declare Scope prog_scope.
Delimit Scope prog_scope with prog.
Notation "x <- p ;; q" := (bind p (fun x => q))
  (at level 20, p at level 99, q at level 200, only parsing) : prog_scope.
Notation "' pat <- p ;; q" := (bind p (fun x => match x with pat => q end))
  (at level 20, pat pattern, p at level 99, q at level 200, only parsing) : prog_scope.
Local Open Scope prog_scope.

(** One call made and the reply it got. *)
Record event : Type := Ev { ev_call : call; ev_reply : reply ev_call }.

(** The collaborators: how each call answers in a world [W] and what world
    it leaves. *)
Definition handler (W : Type) : Type := forall c : call, W -> reply c * W.

Fixpoint run {W R : Type} (h : handler W) (p : prog R) (w : W) : R * W :=
  match p with
  | Ret r => (r, w)
  | Call c k => let '(x, w') := h c w in run h (k x) w'
  end.

Fixpoint trace {W R : Type} (h : handler W) (p : prog R) (w : W) : list event :=
  match p with
  | Ret _ => []
  | Call c k => let '(x, w') := h c w in Ev c x :: trace h (k x) w'
  end.

Definition calls {W R : Type} (h : handler W) (p : prog R) (w : W) : list call :=
  map ev_call (trace h p w).

(** ** The methods of layerstore.go

    [Format] and [Parse] stand for [t.Format(time.RFC3339)] and
    [time.Parse(time.RFC3339, s)] of the Go standard library.  The logger
    calls and the context argument are left out. *)

Module layerstore.
Section Methods.

Variable Format : Time -> string.
Variable Parse : string -> result Time.

(** Lines 215-236. *)
Definition path (ls : layerStore) (dgst : Digest) : prog (result string) :=
  r <- perform (pm_path (pm (ls_repository ls))
                  (layerLinkPathSpec (Name (ls_repository ls)) dgst)) ;;
  match r with
  | inr err => Ret (inr err)
  | inl layerLinkPath =>
    r <- perform (blobStore_resolve (repo_blobStore (ls_repository ls)) layerLinkPath) ;;
    match r with
    | inr err =>
      match err with
      | PathNotFoundError _ => Ret (inr (ErrUnknownLayer dgst))
      | _ => Ret (inr err)
      end
    | inl blobPath => Ret (inl blobPath)
    end
  end.

(** Lines 46-53: the second test of [err] after the stat, with [k] the
    statement that follows it. *)
Definition afterStat {R : Type} (err : option error)
    (ret : bool * option error -> prog R) (k : prog R) : prog R :=
  match err with
  | Some e =>
    match e with
    | ErrUnknownLayer _ => ret (false, None)
    | _ => ret (false, Some e)
    end
  | None => k
  end.

(** Lines 19-56.  The two results are kept as the pair Go returns. *)
Definition Exists (ls : layerStore) (digest : Digest) : prog (bool * option error) :=
  r <- perform (tombstoneExists (tomb ls) (Name (ls_repository ls)) digest) ;;
  match r with
  | inr err => Ret (false, Some err)
  | inl true => Ret (false, None)
  | inl false =>
    r <- path ls digest ;;
    match r with
    | inr err =>
      match err with
      | ErrUnknownLayer _ => Ret (false, None)
      | _ => Ret (false, Some err)
      end
    | inl bp =>
      r <- perform (driver_Stat (driver (ls_repository ls)) bp) ;;
      let err := match r with inl _ => None | inr e => Some e end in
      match err with
      | Some e => Ret (false, Some e)
      | None => afterStat err Ret (Ret (true, None))
      end
    end
  end.

(** Lines 58-85. *)
Definition Fetch (ls : layerStore) (dgst : Digest) : prog (result layerReader) :=
  '(exists_, err) <- Exists ls dgst ;;
  match err with
  | Some e => Ret (inr e)
  | None =>
    if negb exists_ then Ret (inr (ErrUnknownLayer dgst))
    else
      r <- path ls dgst ;;
      match r with
      | inr e => Ret (inr e)
      | inl bp =>
        r <- perform (newFileReader (driver (ls_repository ls)) bp) ;;
        match r with
        | inr e => Ret (inr e)
        | inl fr => Ret (inl {| lr_fileReader := fr; lr_digest := dgst |})
        end
      end
  end.

(** Lines 193-213. *)
Definition newLayerUpload (ls : layerStore) (uuid path : string) (startedAt : Time)
    : prog (result layerWriter) :=
  r <- perform (newFileWriter (driver (ls_repository ls)) path) ;;
  match r with
  | inr err => Ret (inr err)
  | inl fw =>
    let lw := {| lw_layerStore := ls;
                 lw_uuid := uuid;
                 lw_startedAt := startedAt;
                 lw_bufferedFileWriter := fw;
                 lw_tomb := {| tomb_pm := defaultPathMapper;
                               tomb_driver := driver (ls_repository ls) |};
                 lw_resumableDigester := None |} in
    dg <- perform (setupResumableDigester uuid) ;;
    Ret (inl (set_resumableDigester dg lw))
  end.

(** Lines 90-125. *)
Definition Upload (ls : layerStore) : prog (result layerWriter) :=
  uuid <- perform uuid_New ;;
  startedAt <- perform time_Now_UTC ;;
  r <- perform (pm_path (pm (ls_repository ls))
                  (uploadDataPathSpec (Name (ls_repository ls)) uuid)) ;;
  match r with
  | inr err => Ret (inr err)
  | inl path =>
    r <- perform (pm_path (pm (ls_repository ls))
                    (uploadStartedAtPathSpec (Name (ls_repository ls)) uuid)) ;;
    match r with
    | inr err => Ret (inr err)
    | inl startedAtPath =>
      r <- perform (driver_PutContent (driver (ls_repository ls)) startedAtPath
                      (list_byte_of_string (Format startedAt))) ;;
      match r with
      | Some err => Ret (inr err)
      | None => newLayerUpload ls uuid path startedAt
      end
    end
  end.

(** Lines 129-167. *)
Definition Resume (ls : layerStore) (uuid : string) : prog (result layerWriter) :=
  r <- perform (pm_path (pm (ls_repository ls))
                  (uploadStartedAtPathSpec (Name (ls_repository ls)) uuid)) ;;
  match r with
  | inr err => Ret (inr err)
  | inl startedAtPath =>
    r <- perform (driver_GetContent (driver (ls_repository ls)) startedAtPath) ;;
    match r with
    | inr err =>
      match err with
      | PathNotFoundError _ => Ret (inr ErrLayerUploadUnknown)
      | _ => Ret (inr err)
      end
    | inl startedAtBytes =>
      match Parse (string_of_list_byte startedAtBytes) with
      | inr err => Ret (inr err)
      | inl startedAt =>
        r <- perform (pm_path (pm (ls_repository ls))
                        (uploadDataPathSpec (Name (ls_repository ls)) uuid)) ;;
        match r with
        | inr err => Ret (inr err)
        | inl path => newLayerUpload ls uuid path startedAt
        end
      end
    end
  end.

(** Lines 171-190. *)
Definition Delete (ls : layerStore) (dgst : Digest) : prog (option error) :=
  r <- perform (tombstoneExists (tomb ls) (Name (ls_repository ls)) dgst) ;;
  match r with
  | inr err => Ret (Some err)
  | inl true => Ret (Some (ErrUnknownLayer dgst))
  | inl false =>
    r <- perform (putTombstone (tomb ls) (Name (ls_repository ls)) dgst) ;;
    match r with
    | Some err => Ret (Some err)
    | None => Ret None
    end
  end.

End Methods.
End layerstore.

(** ** The Go time package, as far as the file uses it

    Modelled from the spec: [time.Time.Format] and [time.Parse] belong to the
    Go standard library; section 6 asks for a fixed, parseable text format and
    the file passes the layout [time.RFC3339], which is
    [2006-01-02T15:04:05Z07:00].  The calendar arithmetic follows the
    library's [absDate] and [Date], counted from the first of January of year
    1 with flooring division. The parser reads the fields the layout names,
    a fraction of a second after the seconds where the text has one, and a
    zone that is either [Z] or a signed [hh:mm]. *)

Module gotime.

Definition secondsPerDay : Z := 86400.
Definition daysPer400Years : Z := 365 * 400 + 97.
Definition daysPer100Years : Z := 365 * 100 + 24.
Definition daysPer4Years : Z := 365 * 4 + 1.

(** Seconds from the first of January of year 1 to the Unix epoch. *)
Definition unixToInternal : Z :=
  (1969 * 365 + 1969 / 4 - 1969 / 100 + 1969 / 400) * secondsPerDay.

(** [daysBefore m] counts the days of a common year before month [m + 1]. *)
Definition daysBefore (m : Z) : Z :=
  nth (Z.to_nat m) [0; 31; 59; 90; 120; 151; 181; 212; 243; 273; 304; 334; 365] 0.

Definition isLeap (year : Z) : bool :=
  (year mod 4 =? 0) && (negb (year mod 100 =? 0) || (year mod 400 =? 0)).

Definition daysIn (month year : Z) : Z :=
  if (month =? 2) && isLeap year then 29
  else daysBefore month - daysBefore (month - 1).

(** The years completed within a cycle of 400 years, and the day of the
    year, for the day numbered [d] within the cycle. *)
Definition cycleYear (d : Z) : Z * Z :=
  let n := d / daysPer100Years in
  let n := n - Z.shiftr n 2 in
  let y := 100 * n in
  let d := d - daysPer100Years * n in
  let n := d / daysPer4Years in
  let y := y + 4 * n in
  let d := d - daysPer4Years * n in
  let n := d / 365 in
  let n := n - Z.shiftr n 2 in
  (y + n, d - 365 * n).

(** Month and day of the month of the day numbered [yday] within its year. *)
Definition monthDay (leap : bool) (yday : Z) : Z * Z :=
  if leap && (yday =? 31 + 29 - 1) then (2, 29)
  else
    let day := if leap && (31 + 29 - 1 <? yday) then yday - 1 else yday in
    let month := day / 31 in
    let end_ := daysBefore (month + 1) in
    if end_ <=? day then (month + 2, day - end_ + 1)
    else (month + 1, day - daysBefore month + 1).

(** Year, month and day of the day numbered [d]. *)
Definition absDate (d : Z) : Z * Z * Z :=
  let n := d / daysPer400Years in
  let '(y, yday) := cycleYear (d - daysPer400Years * n) in
  let year := 400 * n + y + 1 in
  let '(month, day) := monthDay (isLeap year) yday in
  (year, month, day).

(** The number of the day [year]-[month]-[day]. *)
Definition dateDays (year month day : Z) : Z :=
  let y := year - 1 in
  let n := y / 400 in
  let y := y - 400 * n in
  let d := daysPer400Years * n in
  let n := y / 100 in
  let y := y - 100 * n in
  let d := d + daysPer100Years * n in
  let n := y / 4 in
  let y := y - 4 * n in
  let d := d + daysPer4Years * n in
  let d := d + 365 * y in
  let d := d + daysBefore (month - 1) in
  let d := if isLeap year && (3 <=? month) then d + 1 else d in
  d + (day - 1).

(** [time.Date] on fields that are in range, as Unix seconds. *)
Definition Date (year month day hour min sec : Z) : Z :=
  dateDays year month day * secondsPerDay + hour * 3600 + min * 60 + sec
  - unixToInternal.

Definition Year (t : Time) : Z :=
  fst (fst (absDate ((sec t + unixToInternal) / secondsPerDay))).

(** *** Printing *)

Definition digit (n : Z) : ascii := ascii_of_nat (48 + Z.to_nat n).

Fixpoint utoa (fuel : nat) (u : Z) (acc : string) : string :=
  match fuel with
  | O => acc
  | S fuel' =>
    if u <? 10 then String (digit u) acc
    else utoa fuel' (u / 10) (String (digit (u mod 10)) acc)
  end.

Fixpoint zeros (n : nat) (s : string) : string :=
  match n with
  | O => s
  | S n' => String "0" (zeros n' s)
  end.

(** [appendInt]: the decimal digits of [x], padded with zeros on the left to
    [width] digits, behind a minus sign when [x] is negative. *)
Definition appendInt (x : Z) (width : nat) : string :=
  let ds := utoa 20 (Z.abs x) EmptyString in
  let padded := zeros (width - String.length ds) ds in
  if x <? 0 then String "-" padded else padded.

(** [t.Format(time.RFC3339)] for a time in UTC.  The layout has no field for
    the fraction of a second. *)
Definition Format (t : Time) : string :=
  let abs := sec t + unixToInternal in
  let '(year, month, day) := absDate (abs / secondsPerDay) in
  let s := abs mod secondsPerDay in
  String.append (appendInt year 4) (String "-" (
  String.append (appendInt month 2) (String "-" (
  String.append (appendInt day 2) (String "T" (
  String.append (appendInt (s / 3600) 2) (String ":" (
  String.append (appendInt (s mod 3600 / 60) 2) (String ":" (
  String.append (appendInt (s mod 60) 2) "Z")))))))))).

(** *** Parsing *)

Definition isDigit (c : ascii) : bool :=
  (48 <=? nat_of_ascii c)%nat && (nat_of_ascii c <=? 57)%nat.

Definition digitVal (c : ascii) : Z := Z.of_nat (nat_of_ascii c) - 48.

Definition getnum2 (s : string) : option (Z * string) :=
  match s with
  | String a (String b rest) =>
    if isDigit a && isDigit b then Some (10 * digitVal a + digitVal b, rest)
    else None
  | _ => None
  end.

Definition getnum4 (s : string) : option (Z * string) :=
  match getnum2 s with
  | Some (hi, s') =>
    match getnum2 s' with
    | Some (lo, rest) => Some (100 * hi + lo, rest)
    | None => None
    end
  | None => None
  end.

Definition expect (c : ascii) (s : string) : option string :=
  match s with
  | String a rest => if Ascii.eqb a c then Some rest else None
  | EmptyString => None
  end.

(** The digits of a fraction: at most nine count, the rest is dropped. *)
Fixpoint fraction (s : string) (scale acc : Z) : Z * string :=
  match s with
  | String a rest =>
    if isDigit a then fraction rest (scale / 10) (acc + digitVal a * scale)
    else (acc, s)
  | EmptyString => (acc, s)
  end.

Definition parseNanoseconds (s : string) : Z * string :=
  match s with
  | String "." (String a rest) =>
    if isDigit a then fraction (String a rest) 100000000 0 else (0, s)
  | _ => (0, s)
  end.

(** The zone: [Z], or a sign, hours, a colon and minutes; the result is the
    offset east of UTC in seconds. *)
Definition parseZone (s : string) : option (Z * string) :=
  match s with
  | String "Z" rest => Some (0, rest)
  | String sign rest =>
    if Ascii.eqb sign "+" || Ascii.eqb sign "-" then
      '(hh, rest) ← getnum2 rest;
      rest ← expect ":" rest;
      '(mm, rest) ← getnum2 rest;
      Some ((if Ascii.eqb sign "-" then -1 else 1) * (hh * 3600 + mm * 60), rest)
    else None
  | EmptyString => None
  end.

Definition parseRFC3339 (value : string) : option Time :=
  '(year, value) ← getnum4 value;
  value ← expect "-" value;
  '(month, value) ← getnum2 value;
  value ← expect "-" value;
  '(day, value) ← getnum2 value;
  value ← expect "T" value;
  '(hour, value) ← getnum2 value;
  value ← expect ":" value;
  '(min, value) ← getnum2 value;
  value ← expect ":" value;
  '(sec, value) ← getnum2 value;
  let '(nsec, value) := parseNanoseconds value in
  '(offset, value) ← parseZone value;
  if (1 <=? month) && (month <=? 12) && (1 <=? day) && (day <=? daysIn month year)
     && (hour <? 24) && (min <? 60) && (sec <? 60)
     && match value with EmptyString => true | _ => false end
  then Some (mkTime (Date year month day hour min sec - offset) nsec)
  else None.

(** [time.Parse(time.RFC3339, value)]. *)
Definition Parse (value : string) : result Time :=
  match parseRFC3339 value with
  | Some t => inl t
  | None => inr (ParseError value)
  end.

(** What is left of a time once the fraction of a second is dropped. *)
Definition truncateSecond (t : Time) : Time := mkTime (sec t) 0.

(** *** What the proofs enumerate *)

(** A check of every number from [v] up, [n] of them. *)
Fixpoint checkFrom (P : Z -> bool) (n : nat) (v : Z) : bool :=
  match n with
  | O => true
  | S n' => if P v then checkFrom P n' (v + 1) else false
  end.

(** Two and four decimal digits. *)
Definition two (v : Z) : string :=
  String (digit (v / 10)) (String (digit (v mod 10)) EmptyString).

Definition four (v : Z) : string :=
  String (digit (v / 1000)) (String (digit (v / 100 mod 10))
    (String (digit (v / 10 mod 10)) (String (digit (v mod 10)) EmptyString))).

(** Within one cycle of 400 years the two directions agree, day by day. *)
Definition cycleOk (r : Z) : bool :=
  let '(y, m, dd) := absDate r in
  (1 <=? y) && (y <=? 400) && (dateDays y m dd =? r)
  && (1 <=? m) && (m <=? 12) && (1 <=? dd) && (dd <=? daysIn m y).

End gotime.

(** ** The collaborators over a store in memory

    Modelled from the spec: the tombstone manager, the path mapper, the blob
    store's link resolution, the storage driver and the reader and writer
    constructors are declared outside layerstore.go.  Sections 4.1, 4.2 and 6
    give their contracts: a driver maps paths to bytes and answers a missing
    path with its not-found error and a backend failure with any other
    error; a tombstone is a marker object at a path derived from the
    repository name and the digest, and a missing marker means not
    tombstoned; a link is read to obtain the path of the blob; the path
    mapper does no I/O and fails only on a malformed identifier. *)

Module inmemory.

Record World : Type := {
  files : gmap (StorageDriver * string) (list Byte.byte);
  outage : gmap StorageDriver error;
  uuids : list string;
  now : Time
}.

Definition set_files (f : gmap (StorageDriver * string) (list Byte.byte)) (w : World) : World :=
  {| files := f; outage := outage w; uuids := uuids w; now := now w |}.

Definition set_uuids (us : list string) (w : World) : World :=
  {| files := files w; outage := outage w; uuids := us; now := now w |}.

(** *** The driver *)

Definition Stat (w : World) (d : StorageDriver) (p : string) : result FileInfo :=
  match outage w !! d with
  | Some e => inr e
  | None =>
    match files w !! (d, p) with
    | Some content => inl {| fi_path := p; fi_size := Z.of_nat (length content) |}
    | None => inr (PathNotFoundError p)
    end
  end.

Definition GetContent (w : World) (d : StorageDriver) (p : string) : result (list Byte.byte) :=
  match outage w !! d with
  | Some e => inr e
  | None =>
    match files w !! (d, p) with
    | Some content => inl content
    | None => inr (PathNotFoundError p)
    end
  end.

Definition PutContent (w : World) (d : StorageDriver) (p : string) (content : list Byte.byte)
    : option error * World :=
  match outage w !! d with
  | Some e => (Some e, w)
  | None => (None, set_files (<[(d, p) := content]> (files w)) w)
  end.

(** *** The path mapper *)

(** A digest is written [algorithm:hex]; its path components are the two
    parts. *)
Fixpoint splitAlgorithm (s : string) : option (string * string) :=
  match s with
  | EmptyString => None
  | String c rest =>
    if Ascii.eqb c ":" then Some (EmptyString, rest)
    else '(alg, hex) ← splitAlgorithm rest; Some (String c alg, hex)
  end.

Definition digestPathComponents (dgst : Digest) : result string :=
  match splitAlgorithm dgst with
  | Some (alg, hex) => inl (alg +:+ "/" +:+ hex)
  | None => inr (OtherError "invalid checksum digest format")
  end.

Definition repositoryRoot (m : pathMapper) (name : string) : string :=
  root m +:+ version m +:+ "/repositories/" +:+ name.

Definition mapper_path (m : pathMapper) (spec : pathSpec) : result string :=
  match spec with
  | uploadDataPathSpec name uuid =>
    inl (repositoryRoot m name +:+ "/_uploads/" +:+ uuid +:+ "/data")
  | uploadStartedAtPathSpec name uuid =>
    inl (repositoryRoot m name +:+ "/_uploads/" +:+ uuid +:+ "/startedat")
  | layerLinkPathSpec name digest =>
    match digestPathComponents digest with
    | inl components =>
      inl (repositoryRoot m name +:+ "/_layers/" +:+ components +:+ "/link")
    | inr e => inr e
    end
  end.

Definition tombstonePath (m : pathMapper) (name : string) (dgst : Digest) : result string :=
  match digestPathComponents dgst with
  | inl components =>
    inl (repositoryRoot m name +:+ "/_layers/" +:+ components +:+ "/tombstone")
  | inr e => inr e
  end.

Definition blobDataPath (m : pathMapper) (dgst : Digest) : result string :=
  match digestPathComponents dgst with
  | inl components => inl (root m +:+ version m +:+ "/blobs/" +:+ components +:+ "/data")
  | inr e => inr e
  end.

(** *** The tombstone manager *)

Definition tombstone_exists (w : World) (t : tombstone) (name : string) (dgst : Digest)
    : result bool :=
  match tombstonePath (tomb_pm t) name dgst with
  | inr e => inr e
  | inl p =>
    match Stat w (tomb_driver t) p with
    | inl _ => inl true
    | inr (PathNotFoundError _) => inl false
    | inr e => inr e
    end
  end.

Definition put_tombstone (w : World) (t : tombstone) (name : string) (dgst : Digest)
    : option error * World :=
  match tombstonePath (tomb_pm t) name dgst with
  | inr e => (Some e, w)
  | inl p => PutContent w (tomb_driver t) p []
  end.

(** *** The blob store *)

Definition resolve (w : World) (bs : blobStore) (linkPath : string) : result string :=
  match GetContent w (bs_driver bs) linkPath with
  | inr e => inr e
  | inl content => blobDataPath (bs_pm bs) (string_of_list_byte content)
  end.

(** *** Readers and writers *)

Definition new_file_reader (w : World) (d : StorageDriver) (p : string) : result fileReader :=
  match Stat w d p with
  | inr e => inr e
  | inl fi => inl {| fr_driver := d; fr_path := p; fr_size := fi_size fi |}
  end.

(** A writer opens at the end of what the path already holds, and at zero
    when the path holds nothing yet. *)
Definition new_file_writer (w : World) (d : StorageDriver) (p : string)
    : result bufferedFileWriter :=
  match Stat w d p with
  | inl fi => inl {| fw_driver := d; fw_path := p; fw_size := fi_size fi |}
  | inr (PathNotFoundError _) => inl {| fw_driver := d; fw_path := p; fw_size := 0 |}
  | inr e => inr e
  end.

(** *** All of them *)

Definition collaborators : handler World :=
  fun c w =>
    match c return reply c * World with
    | tombstoneExists t name dgst => (tombstone_exists w t name dgst, w)
    | putTombstone t name dgst => put_tombstone w t name dgst
    | pm_path m spec => (mapper_path m spec, w)
    | blobStore_resolve bs linkPath => (resolve w bs linkPath, w)
    | driver_Stat d p => (Stat w d p, w)
    | driver_GetContent d p => (GetContent w d p, w)
    | driver_PutContent d p content => PutContent w d p content
    | newFileReader d p => (new_file_reader w d p, w)
    | newFileWriter d p => (new_file_writer w d p, w)
    | uuid_New =>
      match uuids w with
      | u :: rest => (u, set_uuids rest w)
      | [] => (EmptyString, w)
      end
    | time_Now_UTC => (now w, w)
    | setupResumableDigester _ => (Some [], w)
    end.

End inmemory.

(** ** A registry to evaluate on *)

Definition sampleRepository : repository :=
  {| Name := "library/ubuntu";
     driver := 0%nat;
     pm := defaultPathMapper;
     repo_blobStore := {| bs_driver := 0%nat; bs_pm := defaultPathMapper |} |}.

Definition sampleStore : layerStore :=
  {| ls_repository := sampleRepository;
     tomb := {| tomb_pm := defaultPathMapper; tomb_driver := 0%nat |} |}.

Definition sampleDigest : Digest := "sha256:ab12".

Definition sampleLinkPath : string :=
  "/docker/registry/v2/repositories/library/ubuntu/_layers/sha256/ab12/link".

Definition sampleBlobPath : string := "/docker/registry/v2/blobs/sha256/ab12/data".

Definition sampleTime : Time := mkTime 1425556800 500000000.

(** Nothing stored yet. *)
Definition emptyWorld : inmemory.World :=
  {| inmemory.files := ∅; inmemory.outage := ∅;
     inmemory.uuids := ["6b3c"; "9f01"]; inmemory.now := sampleTime |}.

(** The sample digest is linked into the sample repository and its blob is
    stored. *)
Definition linkedWorld : inmemory.World :=
  inmemory.set_files
    (<[(0%nat, sampleLinkPath) := list_byte_of_string sampleDigest]>
       (<[(0%nat, sampleBlobPath) := list_byte_of_string "layer bytes"]> ∅))
    emptyWorld.

(** The link is there and the blob it names is not. *)
Definition danglingWorld : inmemory.World :=
  inmemory.set_files
    (<[(0%nat, sampleLinkPath) := list_byte_of_string sampleDigest]> ∅) emptyWorld.

(** The link holds something that is not a digest. *)
Definition garbledWorld : inmemory.World :=
  inmemory.set_files
    (<[(0%nat, sampleLinkPath) := list_byte_of_string "garbage"]> ∅) emptyWorld.

(** The driver is down. *)
Definition downWorld : inmemory.World :=
  {| inmemory.files := inmemory.files linkedWorld;
     inmemory.outage := {[ 0%nat := OtherError "i/o timeout" ]};
     inmemory.uuids := ["6b3c"]; inmemory.now := sampleTime |}.

(** The link and the blob of the sample digest, as the driver holds them. *)
Definition linkAndBlob (w : inmemory.World) : option (list Byte.byte) * option (list Byte.byte) :=
  (inmemory.files w !! (0%nat, sampleLinkPath), inmemory.files w !! (0%nat, sampleBlobPath)).

Definition sampleStartedAtPath : string :=
  "/docker/registry/v2/repositories/library/ubuntu/_uploads/6b3c/startedat".

Definition sampleDataPath : string :=
  "/docker/registry/v2/repositories/library/ubuntu/_uploads/6b3c/data".

(** The started-at marker of upload [6b3c] holds no timestamp. *)
Definition malformedWorld : inmemory.World :=
  inmemory.set_files
    (<[(0%nat, sampleStartedAtPath) := list_byte_of_string "yesterday"]> ∅) emptyWorld.

(** The session that [Upload] returns in [emptyWorld], and the world it
    leaves. *)
Definition sampleSession : layerWriter :=
  {| lw_layerStore := sampleStore;
     lw_uuid := "6b3c";
     lw_startedAt := sampleTime;
     lw_bufferedFileWriter :=
       {| fw_driver := 0%nat; fw_path := sampleDataPath; fw_size := 0 |};
     lw_tomb := {| tomb_pm := defaultPathMapper; tomb_driver := 0%nat |};
     lw_resumableDigester := Some [] |}.

Definition uploadedWorld : inmemory.World :=
  snd (run inmemory.collaborators (layerstore.Upload gotime.Format sampleStore) emptyWorld).

(** The world that [Delete] of the sample digest leaves from [linkedWorld]:
    the link and the blob are still there. *)
Definition deletedWorld : inmemory.World :=
  snd (run inmemory.collaborators (layerstore.Delete sampleStore sampleDigest) linkedWorld).

(** Collaborators without state, which answer from a table. *)
Definition scripted (answer : forall c : call, reply c) : handler unit :=
  fun c w => (answer c, w).

(** Nothing is tombstoned and the path mapper rejects the repository name. *)
Definition rejectedName (c : call) : reply c :=
  match c return reply c with
  | tombstoneExists _ _ _ => inl false
  | putTombstone _ _ _ => None
  | pm_path _ _ => inr (OtherError "invalid repository name")
  | blobStore_resolve _ p => inr (PathNotFoundError p)
  | driver_Stat _ p => inr (PathNotFoundError p)
  | driver_GetContent _ p => inr (PathNotFoundError p)
  | driver_PutContent _ _ _ => None
  | newFileReader _ p => inr (PathNotFoundError p)
  | newFileWriter d p => inl {| fw_driver := d; fw_path := p; fw_size := 0 |}
  | uuid_New => "6b3c"
  | time_Now_UTC => sampleTime
  | setupResumableDigester _ => None
  end.

(** ** The vocabulary of the statements *)

(** The two tests the type switches of the file make. *)
Definition isPathNotFound (e : error) : bool :=
  match e with PathNotFoundError _ => true | _ => false end.

Definition isUnknownLayer (e : error) : bool :=
  match e with ErrUnknownLayer _ => true | _ => false end.

(** [Exists] with lines 46-53 taken out. *)
Definition Exists_without_second_check (ls : layerStore) (digest : Digest)
    : prog (bool * option error) :=
  r <- perform (tombstoneExists (tomb ls) (Name (ls_repository ls)) digest) ;;
  match r with
  | inr err => Ret (false, Some err)
  | inl true => Ret (false, None)
  | inl false =>
    r <- layerstore.path ls digest ;;
    match r with
    | inr err =>
      match err with
      | ErrUnknownLayer _ => Ret (false, None)
      | _ => Ret (false, Some err)
      end
    | inl bp =>
      r <- perform (driver_Stat (driver (ls_repository ls)) bp) ;;
      match r with
      | inr e => Ret (false, Some e)
      | inl _ => Ret (true, None)
      end
    end
  end.

(** The tombstone manager answers that the digest is tombstoned. *)
Definition tombstoned {W : Type} (h : handler W)
    (t : tombstone) (name : string) (d : Digest) (w : W) : Prop :=
  fst (h (tombstoneExists t name d) w) = inl true.

(** The contract of the tombstone manager (sections 3 and 4.1): a tombstone
    that was put is there, and one that is there stays, whatever is called
    next. *)
Record TombstoneContract {W : Type} (h : handler W) : Prop := {
  put_then_exists : forall t name d w w',
    h (putTombstone t name d) w = (None, w') -> tombstoned h t name d w';
  tombstone_stays : forall t name d c w,
    tombstoned h t name d w -> tombstoned h t name d (snd (h c w))
}.

(** The calls that write to the store. *)
Definition writes (c : call) : bool :=
  match c with
  | driver_PutContent _ _ _ | putTombstone _ _ _ => true
  | _ => false
  end.

(** The driver reads [content] at path [p]. *)
Definition holds {W : Type} (h : handler W)
    (d : StorageDriver) (p : string) (content : list Byte.byte) (w : W) : Prop :=
  fst (h (driver_GetContent d p) w) = inl content.

(** The contract of the path mapper and the driver (sections 4.2 and 6): the
    path mapper is a function of its argument; what was put at a path is read
    back from it; and a call that does not write leaves what a path holds. *)
Record StoreContract {W : Type} (h : handler W) : Prop := {
  pm_path_pure : forall m spec w w',
    fst (h (pm_path m spec) w) = fst (h (pm_path m spec) w');
  put_then_get : forall d p content w w',
    h (driver_PutContent d p content) w = (None, w') -> holds h d p content w';
  content_stays : forall d p content c w,
    writes c = false -> holds h d p content w -> holds h d p content (snd (h c w))
}.

(** The calls that look whether something is already there. *)
Definition existenceCheck (c : call) : bool :=
  match c with
  | tombstoneExists _ _ _ | blobStore_resolve _ _ | driver_Stat _ _
  | driver_GetContent _ _ | newFileReader _ _
  | pm_path _ (layerLinkPathSpec _ _) => true
  | _ => false
  end.

(** The error of an event that is a failed path mapping, a failed write of
    content or a failed allocation of a writer. *)
Definition failure (ev : event) : option error :=
  match ev with
  | Ev c r =>
    match c return reply c -> option error with
    | pm_path _ _ => fun r => match r with inr e => Some e | inl _ => None end
    | driver_PutContent _ _ _ => fun r => r
    | newFileWriter _ _ => fun r => match r with inr e => Some e | inl _ => None end
    | _ => fun _ => None
    end r
  end.

Definition writerFailed (ev : event) : bool :=
  match ev with
  | Ev c r =>
    match c return reply c -> bool with
    | newFileWriter _ _ => fun r => match r with inr _ => true | inl _ => false end
    | _ => fun _ => false
    end r
  end.

(** The calls that draw a token or read the clock. *)
Definition drawsFresh (c : call) : bool :=
  match c with
  | uuid_New | time_Now_UTC => true
  | _ => false
  end.

(** The store takes no write: nothing is tombstoned and the put of a
    tombstone fails. *)
Definition readOnlyStore (c : call) : reply c :=
  match c return reply c with
  | tombstoneExists _ _ _ => inl false
  | putTombstone _ _ _ => Some (OtherError "read-only file system")
  | pm_path m spec => inmemory.mapper_path m spec
  | blobStore_resolve _ p => inr (PathNotFoundError p)
  | driver_Stat _ p => inr (PathNotFoundError p)
  | driver_GetContent _ p => inr (PathNotFoundError p)
  | driver_PutContent _ _ _ => Some (OtherError "read-only file system")
  | newFileReader _ p => inr (PathNotFoundError p)
  | newFileWriter _ _ => inr (OtherError "read-only file system")
  | uuid_New => "6b3c"
  | time_Now_UTC => sampleTime
  | setupResumableDigester _ => None
  end.

(** The marker can be written and the writer cannot be allocated: the data
    path is taken by a directory. *)
Definition writerDenied (c : call) : reply c :=
  match c return reply c with
  | tombstoneExists _ _ _ => inl false
  | putTombstone _ _ _ => None
  | pm_path m spec => inmemory.mapper_path m spec
  | blobStore_resolve _ p => inr (PathNotFoundError p)
  | driver_Stat _ p => inr (PathNotFoundError p)
  | driver_GetContent _ p => inr (PathNotFoundError p)
  | driver_PutContent _ _ _ => None
  | newFileReader _ p => inr (PathNotFoundError p)
  | newFileWriter _ _ => inr (OtherError "cannot write to a directory")
  | uuid_New => "6b3c"
  | time_Now_UTC => sampleTime
  | setupResumableDigester _ => None
  end.

(** A link that is there the first time the blob store reads it and gone
    afterwards, as when another request removes it in between; the world
    counts the reads. *)
Definition vanishingLink : handler nat :=
  fun c n =>
    match c return reply c * nat with
    | tombstoneExists _ _ _ => (inl false, n)
    | putTombstone _ _ _ => (None, n)
    | pm_path m spec => (inmemory.mapper_path m spec, n)
    | blobStore_resolve _ p =>
      match n with
      | O => (inl sampleBlobPath, S n)
      | S _ => (inr (PathNotFoundError p), S n)
      end
    | driver_Stat _ p => (inl {| fi_path := p; fi_size := 11 |}, n)
    | driver_GetContent _ p => (inr (PathNotFoundError p), n)
    | driver_PutContent _ _ _ => (None, n)
    | newFileReader d p => (inl {| fr_driver := d; fr_path := p; fr_size := 11 |}, n)
    | newFileWriter d p => (inl {| fw_driver := d; fw_path := p; fw_size := 0 |}, n)
    | uuid_New => ("6b3c", n)
    | time_Now_UTC => (sampleTime, n)
    | setupResumableDigester _ => (None, n)
    end.

(** * Facts about the time format *)

Module gotime_facts.
Import gotime.

Lemma checkFrom_spec (P : Z -> bool) (n : nat) :
  forall v, checkFrom P n v = true ->
  forall x, v <= x < v + Z.of_nat n -> P x = true.
Proof.
  induction n as [|n IH]; intros v Hc x Hx.
  - lia.
  - cbn [checkFrom] in Hc. destruct (P v) eqn:Hv; [|discriminate].
    destruct (Z.eq_dec x v) as [->|Hne]; [exact Hv|].
    apply (IH (v + 1) Hc). lia.
Qed.

Lemma checkBelow (P : Z -> bool) (n : Z) :
  checkFrom P (Z.to_nat n) 0 = true ->
  forall x, 0 <= x < n -> P x = true.
Proof.
  intros Hc x Hx. apply (checkFrom_spec P (Z.to_nat n) 0 Hc). lia.
Qed.

(** *** Digits *)

Lemma append_String (a : ascii) (s r : string) :
  String.append (String a s) r = String a (String.append s r).
Proof. reflexivity. Qed.

Lemma append_Empty (r : string) : String.append EmptyString r = r.
Proof. reflexivity. Qed.

Lemma appendInt_two (v : Z) : 0 <= v < 100 -> appendInt v 2 = two v.
Proof.
  intros Hv. apply String.eqb_eq.
  apply (checkBelow (fun x => String.eqb (appendInt x 2) (two x)) 100); [|exact Hv].
  vm_compute. reflexivity.
Qed.

Lemma appendInt_four (v : Z) : 0 <= v < 10000 -> appendInt v 4 = four v.
Proof.
  intros Hv. apply String.eqb_eq.
  apply (checkBelow (fun x => String.eqb (appendInt x 4) (four x)) 10000); [|exact Hv].
  vm_compute. reflexivity.
Qed.

Lemma getnum2_two (v : Z) (rest : string) :
  0 <= v < 100 -> getnum2 (String.append (two v) rest) = Some (v, rest).
Proof.
  intros Hv.
  pose proof (checkBelow (fun x =>
            match getnum2 (two x) with
            | Some (y, EmptyString) => y =? x
            | _ => false
            end) 100 ltac:(vm_compute; reflexivity) v Hv) as Hx.
  cbv beta in Hx.
  unfold two in *. rewrite !append_String, append_Empty. cbn [getnum2] in *.
  destruct (isDigit (digit (v / 10)) && isDigit (digit (v mod 10))); [|discriminate].
  apply Z.eqb_eq in Hx. now rewrite Hx.
Qed.

Lemma getnum4_four (v : Z) (rest : string) :
  0 <= v < 10000 -> getnum4 (String.append (four v) rest) = Some (v, rest).
Proof.
  intros Hv.
  pose proof (checkBelow (fun x =>
            match getnum4 (four x) with
            | Some (y, EmptyString) => y =? x
            | _ => false
            end) 10000 ltac:(vm_compute; reflexivity) v Hv) as Hx.
  cbv beta in Hx.
  unfold four, getnum4 in *. rewrite !append_String, append_Empty. cbn [getnum2] in *.
  destruct (isDigit (digit (v / 1000)) && isDigit (digit (v / 100 mod 10)));
    cbn [getnum2] in *; [|discriminate].
  destruct (isDigit (digit (v / 10 mod 10)) && isDigit (digit (v mod 10)));
    [|discriminate].
  apply Z.eqb_eq in Hx. now rewrite Hx.
Qed.

(** *** The calendar *)

Lemma isLeap_shift (y n : Z) : isLeap (400 * n + y) = isLeap y.
Proof.
  unfold isLeap.
  replace ((400 * n + y) mod 4) with (y mod 4)
    by (replace (400 * n + y) with (y + (100 * n) * 4) by lia; now rewrite Z.mod_add).
  replace ((400 * n + y) mod 100) with (y mod 100)
    by (replace (400 * n + y) with (y + (4 * n) * 100) by lia; now rewrite Z.mod_add).
  replace ((400 * n + y) mod 400) with (y mod 400)
    by (replace (400 * n + y) with (y + n * 400) by lia; now rewrite Z.mod_add).
  reflexivity.
Qed.

Lemma cycle_checked (r : Z) : 0 <= r < daysPer400Years -> cycleOk r = true.
Proof.
  apply (checkBelow cycleOk daysPer400Years). vm_compute. reflexivity.
Qed.

Lemma absDate_shift (d : Z) :
  absDate d =
  let '(y, m, dd) := absDate (d mod daysPer400Years) in
  (400 * (d / daysPer400Years) + y, m, dd).
Proof.
  assert (Hpos : 0 < daysPer400Years) by reflexivity.
  pose proof (Z.mod_pos_bound d daysPer400Years Hpos) as Hr.
  unfold absDate. cbv zeta.
  rewrite (Z.div_small (d mod daysPer400Years)) by exact Hr.
  replace (d mod daysPer400Years - daysPer400Years * 0) with (d mod daysPer400Years) by lia.
  replace (d - daysPer400Years * (d / daysPer400Years)) with (d mod daysPer400Years)
    by (rewrite Z.mod_eq; lia).
  destruct (cycleYear (d mod daysPer400Years)) as [y yday].
  replace (400 * (d / daysPer400Years) + y + 1)
    with (400 * (d / daysPer400Years) + (400 * 0 + y + 1)) by lia.
  rewrite isLeap_shift.
  destruct (monthDay (isLeap (400 * 0 + y + 1)) yday) as [m dd].
  reflexivity.
Qed.

Lemma dateDays_shift (y m dd n : Z) :
  1 <= y <= 400 ->
  dateDays (400 * n + y) m dd = daysPer400Years * n + dateDays y m dd.
Proof.
  intros Hy. unfold dateDays. cbv zeta.
  rewrite isLeap_shift.
  replace (400 * n + y - 1) with (y - 1 + n * 400) by lia.
  rewrite Z.div_add by lia.
  rewrite (Z.div_small (y - 1)) by lia.
  replace (y - 1 + n * 400 - 400 * (0 + n)) with (y - 1) by lia.
  replace (y - 1 - 400 * 0) with (y - 1) by lia.
  destruct (isLeap y && (3 <=? m)); lia.
Qed.

Lemma daysIn_shift (y m n : Z) : daysIn m (400 * n + y) = daysIn m y.
Proof. unfold daysIn. now rewrite isLeap_shift. Qed.

(** The day number of the date of a day is that day, and the date is one the
    parser accepts. *)
Lemma dateDays_absDate (d y m dd : Z) :
  absDate d = (y, m, dd) ->
  dateDays y m dd = d /\ 1 <= m <= 12 /\ 1 <= dd <= daysIn m y.
Proof.
  intros Hd. rewrite absDate_shift in Hd.
  assert (Hpos : 0 < daysPer400Years) by reflexivity.
  pose proof (Z.mod_pos_bound d daysPer400Years Hpos) as Hr.
  pose proof (cycle_checked _ Hr) as Hok. unfold cycleOk in Hok.
  destruct (absDate (d mod daysPer400Years)) as [[y0 m0] dd0].
  injection Hd as <- <- <-.
  repeat (apply andb_prop in Hok; destruct Hok as [Hok ?]).
  rewrite dateDays_shift by lia. rewrite daysIn_shift.
  pose proof (Z.div_mod d daysPer400Years ltac:(lia)). lia.
Qed.

(** *** The time of day *)

Lemma clock_fields (s : Z) :
  0 <= s < secondsPerDay ->
  0 <= s / 3600 < 24 /\ 0 <= s mod 3600 / 60 < 60 /\ 0 <= s mod 60 < 60
  /\ s / 3600 * 3600 + s mod 3600 / 60 * 60 + s mod 60 = s.
Proof.
  unfold secondsPerDay. intros Hs.
  Z.to_euclidean_division_equations. lia.
Qed.

Lemma daysIn_le_31 (m y : Z) : 1 <= m <= 12 -> daysIn m y <= 31.
Proof.
  intros Hm. unfold daysIn.
  assert (m = 1 \/ m = 2 \/ m = 3 \/ m = 4 \/ m = 5 \/ m = 6 \/ m = 7 \/ m = 8
          \/ m = 9 \/ m = 10 \/ m = 11 \/ m = 12) as Hcases by lia.
  destruct (isLeap y);
    repeat (destruct Hcases as [->|Hcases]; [vm_compute; discriminate|]);
    subst m; vm_compute; discriminate.
Qed.

(** *** Printing and reading back *)

Ltac next_field :=
  cbn [mbind option_bind expect];
  repeat rewrite Ascii.eqb_refl;
  cbn [mbind option_bind].

(** What [Format] prints is read back by [Parse] as the same second, without
    the fraction, for every year that the layout can print in four digits. *)
Lemma Parse_Format (t : Time) :
  0 <= Year t <= 9999 -> Parse (Format t) = inl (truncateSecond t).
Proof.
  unfold Year, Parse, parseRFC3339, Format, truncateSecond.
  set (abs := sec t + unixToInternal).
  destruct (absDate (abs / secondsPerDay)) as [[y m] dd] eqn:Hd.
  cbn [fst]. intros Hy.
  destruct (dateDays_absDate _ _ _ _ Hd) as (Hdays & Hm & Hdd).
  pose proof (daysIn_le_31 m y Hm) as H31.
  assert (Hs : 0 <= abs mod secondsPerDay < secondsPerDay)
    by (apply Z.mod_pos_bound; reflexivity).
  destruct (clock_fields _ Hs) as (Hh & Hmi & Hse & Hsum).
  rewrite appendInt_four by lia.
  rewrite !appendInt_two by lia.
  rewrite getnum4_four by lia. next_field.
  do 5 (rewrite getnum2_two by lia; next_field).
  cbn [parseNanoseconds parseZone mbind option_bind].
  replace (1 <=? m) with true by (symmetry; apply Z.leb_le; lia).
  replace (m <=? 12) with true by (symmetry; apply Z.leb_le; lia).
  replace (1 <=? dd) with true by (symmetry; apply Z.leb_le; lia).
  replace (dd <=? daysIn m y) with true by (symmetry; apply Z.leb_le; lia).
  replace (abs mod secondsPerDay / 3600 <? 24) with true by (symmetry; apply Z.ltb_lt; lia).
  replace (abs mod secondsPerDay mod 3600 / 60 <? 60) with true
    by (symmetry; apply Z.ltb_lt; lia).
  replace (abs mod secondsPerDay mod 60 <? 60) with true by (symmetry; apply Z.ltb_lt; lia).
  cbn [andb]. do 2 f_equal.
  unfold Date. rewrite Hdays.
  pose proof (Z.div_mod abs secondsPerDay ltac:(discriminate)).
  unfold abs in *. lia.
Qed.

End gotime_facts.

(** * Running programs *)

Section Running.

Context {W : Type} (h : handler W).

Lemma result_and_world {A B : Type} (p : A * B) (a : A) (b : B) :
  fst p = a -> snd p = b -> p = (a, b).
Proof. destruct p. cbn. congruence. Qed.

Lemma run_bind {A B : Type} (p : prog A) (f : A -> prog B) (w : W) :
  run h (bind p f) w = run h (f (fst (run h p w))) (snd (run h p w)).
Proof.
  revert w. induction p as [a|c k IH]; intros w; cbn [bind run].
  - reflexivity.
  - destruct (h c w) as [x w']. apply IH.
Qed.

Lemma trace_bind {A B : Type} (p : prog A) (f : A -> prog B) (w : W) :
  trace h (bind p f) w =
  trace h p w ++ trace h (f (fst (run h p w))) (snd (run h p w)).
Proof.
  revert w. induction p as [a|c k IH]; intros w; cbn [bind run trace].
  - reflexivity.
  - destruct (h c w) as [x w']. cbn [app]. f_equal. apply IH.
Qed.

Lemma calls_bind {A B : Type} (p : prog A) (f : A -> prog B) (w : W) :
  calls h (bind p f) w =
  calls h p w ++ calls h (f (fst (run h p w))) (snd (run h p w)).
Proof. unfold calls. rewrite trace_bind. apply map_app. Qed.

(** A tombstone outlives every program. *)
Lemma tombstoned_run {A : Type} (Hc : TombstoneContract h)
    (t : tombstone) (name : string) (d : Digest) (p : prog A) (w : W) :
  tombstoned h t name d w -> tombstoned h t name d (snd (run h p w)).
Proof.
  revert w. induction p as [a|c k IH]; intros w Hw; cbn [run].
  - exact Hw.
  - pose proof (tombstone_stays h Hc t name d c w Hw) as Hnext.
    destruct (h c w) as [x w']. apply IH. exact Hnext.
Qed.

End Running.

(** * The layer store *)

Section LayerStore.

Context {W : Type} (h : handler W).
Variable Format : Time -> string.
Variable Parse : string -> result Time.

Ltac reply_is H := rewrite H; cbn [run trace bind fst snd].
Ltac open_method :=
  unfold Exists_without_second_check, layerstore.Fetch, layerstore.Exists,
    layerstore.Delete, layerstore.Upload, layerstore.Resume,
    layerstore.newLayerUpload, layerstore.path, layerstore.afterStat, perform;
  cbn [run trace bind fst snd].

(** ** Exists *)

(** C6. For a digest that is not tombstoned: a link that the blob store does
    not find makes [Exists] return (false, nil); any other error of the
    resolution (from the path mapper or from the blob store, and not itself
    an unknown-layer error) and every error of the stat is returned to the
    caller with false; a stat that succeeds makes it return (true, nil). *)
Theorem Exists_not_tombstoned (ls : layerStore) (digest : Digest) (w w1 : W) :
  h (tombstoneExists (tomb ls) (Name (ls_repository ls)) digest) w = (inl false, w1) ->
  (forall lp p w2 w3,
      h (pm_path (pm (ls_repository ls))
           (layerLinkPathSpec (Name (ls_repository ls)) digest)) w1 = (inl lp, w2) ->
      h (blobStore_resolve (repo_blobStore (ls_repository ls)) lp) w2
        = (inr (PathNotFoundError p), w3) ->
      run h (layerstore.Exists ls digest) w = ((false, None), w3))
  /\ (forall e w2,
      h (pm_path (pm (ls_repository ls))
           (layerLinkPathSpec (Name (ls_repository ls)) digest)) w1 = (inr e, w2) ->
      isUnknownLayer e = false ->
      run h (layerstore.Exists ls digest) w = ((false, Some e), w2))
  /\ (forall lp e w2 w3,
      h (pm_path (pm (ls_repository ls))
           (layerLinkPathSpec (Name (ls_repository ls)) digest)) w1 = (inl lp, w2) ->
      h (blobStore_resolve (repo_blobStore (ls_repository ls)) lp) w2 = (inr e, w3) ->
      isPathNotFound e = false -> isUnknownLayer e = false ->
      run h (layerstore.Exists ls digest) w = ((false, Some e), w3))
  /\ (forall lp bp e w2 w3 w4,
      h (pm_path (pm (ls_repository ls))
           (layerLinkPathSpec (Name (ls_repository ls)) digest)) w1 = (inl lp, w2) ->
      h (blobStore_resolve (repo_blobStore (ls_repository ls)) lp) w2 = (inl bp, w3) ->
      h (driver_Stat (driver (ls_repository ls)) bp) w3 = (inr e, w4) ->
      run h (layerstore.Exists ls digest) w = ((false, Some e), w4))
  /\ (forall lp bp fi w2 w3 w4,
      h (pm_path (pm (ls_repository ls))
           (layerLinkPathSpec (Name (ls_repository ls)) digest)) w1 = (inl lp, w2) ->
      h (blobStore_resolve (repo_blobStore (ls_repository ls)) lp) w2 = (inl bp, w3) ->
      h (driver_Stat (driver (ls_repository ls)) bp) w3 = (inl fi, w4) ->
      run h (layerstore.Exists ls digest) w = ((true, None), w4)).
Proof.
  intros Ht. repeat split.
  - intros lp p w2 w3 Hp Hr. open_method. reply_is Ht. reply_is Hp. reply_is Hr.
    reflexivity.
  - intros e w2 Hp He. open_method. reply_is Ht. reply_is Hp.
    destruct e; try discriminate He; reflexivity.
  - intros lp e w2 w3 Hp Hr Hnf Hul. open_method. reply_is Ht. reply_is Hp. reply_is Hr.
    destruct e; try discriminate Hnf; try discriminate Hul; reflexivity.
  - intros lp bp e w2 w3 w4 Hp Hr Hs. open_method.
    reply_is Ht. reply_is Hp. reply_is Hr. reply_is Hs. reflexivity.
  - intros lp bp fi w2 w3 w4 Hp Hr Hs. open_method.
    reply_is Ht. reply_is Hp. reply_is Hr. reply_is Hs. reflexivity.
Qed.

(** C10. A link that resolves to a path the driver cannot stat: whatever the
    error of the stat is, the driver's not-found error and an unknown-layer
    error included, [Exists] returns false with that very error; and the
    second test of the error, lines 46-53, changes nothing of any run: the
    method runs as the method without those lines does. *)
Theorem Exists_dangling_link (ls : layerStore) (digest : Digest)
    (lp bp : string) (e : error) (w w1 w2 w3 w4 : W) :
  h (tombstoneExists (tomb ls) (Name (ls_repository ls)) digest) w = (inl false, w1) ->
  h (pm_path (pm (ls_repository ls))
       (layerLinkPathSpec (Name (ls_repository ls)) digest)) w1 = (inl lp, w2) ->
  h (blobStore_resolve (repo_blobStore (ls_repository ls)) lp) w2 = (inl bp, w3) ->
  h (driver_Stat (driver (ls_repository ls)) bp) w3 = (inr e, w4) ->
  run h (layerstore.Exists ls digest) w = ((false, Some e), w4)
  /\ (forall d' v,
        run h (layerstore.Exists ls d') v = run h (Exists_without_second_check ls d') v
        /\ trace h (layerstore.Exists ls d') v
           = trace h (Exists_without_second_check ls d') v).
Proof.
  intros Ht Hp Hr Hs. split.
  - open_method. reply_is Ht. reply_is Hp. reply_is Hr. reply_is Hs. reflexivity.
  - intros d' v. open_method.
    destruct (h (tombstoneExists (tomb ls) (Name (ls_repository ls)) d') v)
      as [[[|]|e0] v1]; cbn [run trace bind]; try (split; reflexivity).
    destruct (h (pm_path (pm (ls_repository ls))
                   (layerLinkPathSpec (Name (ls_repository ls)) d')) v1)
      as [[lp'|e1] v2]; cbn [run trace bind]; try (split; reflexivity).
    destruct (h (blobStore_resolve (repo_blobStore (ls_repository ls)) lp') v2)
      as [[bp'|e2] v3]; cbn [run trace bind].
    + destruct (h (driver_Stat (driver (ls_repository ls)) bp') v3)
        as [[fi|e3] v4]; cbn [run trace bind]; split; reflexivity.
    + destruct e2; cbn [run trace bind]; split; reflexivity.
Qed.

(** ** Fetch *)

(** C7. [Fetch] is [Exists] followed by the rest of the method, so the calls
    of [Exists] come first; when [Exists] returns (false, nil) [Fetch] fails
    with the unknown-layer error of the digest asked for; when [Exists]
    returns an error [Fetch] fails with that error; and a reader that [Fetch]
    returns carries the digest asked for. *)
Theorem Fetch_after_Exists (ls : layerStore) (dgst : Digest) (w : W) :
  (exists k, layerstore.Fetch ls dgst = bind (layerstore.Exists ls dgst) k)
  /\ (exists rest,
        trace h (layerstore.Fetch ls dgst) w
        = trace h (layerstore.Exists ls dgst) w ++ rest)
  /\ (fst (run h (layerstore.Exists ls dgst) w) = (false, None) ->
      fst (run h (layerstore.Fetch ls dgst) w) = inr (ErrUnknownLayer dgst))
  /\ (forall b e,
      fst (run h (layerstore.Exists ls dgst) w) = (b, Some e) ->
      fst (run h (layerstore.Fetch ls dgst) w) = inr e)
  /\ (forall lr,
      fst (run h (layerstore.Fetch ls dgst) w) = inl lr -> lr_digest lr = dgst).
Proof.
  unfold layerstore.Fetch at 1 2 3 4 5.
  split; [eexists; reflexivity|].
  split; [rewrite trace_bind; eexists; reflexivity|].
  rewrite run_bind.
  destruct (run h (layerstore.Exists ls dgst) w) as [[b err] w1]. cbn [fst snd].
  repeat split.
  - intros [= -> ->]. reflexivity.
  - intros b' e [= -> ->]. reflexivity.
  - intros lr. destruct err as [e|]; [discriminate|].
    destruct b; cbn [negb]; [|discriminate].
    rewrite run_bind.
    destruct (run h (layerstore.path ls dgst) w1) as [[bp|e] w2]; cbn [fst snd];
      [|discriminate].
    unfold perform. cbn [bind run].
    destruct (h (newFileReader (driver (ls_repository ls)) bp) w2) as [[fr|e] w3];
      cbn [run fst]; [|discriminate].
    intros [= <-]. reflexivity.
Qed.

(** ** Resume *)

(** C5. When the driver's read of the started-at marker fails, [Resume]
    fails: with the unknown-upload error if the driver's error is its
    not-found error, and with the driver's error, as it is, otherwise. *)
Theorem Resume_unknown_upload (ls : layerStore) (uuid sp : string) (e : error)
    (w w1 w2 : W) :
  h (pm_path (pm (ls_repository ls))
       (uploadStartedAtPathSpec (Name (ls_repository ls)) uuid)) w = (inl sp, w1) ->
  h (driver_GetContent (driver (ls_repository ls)) sp) w1 = (inr e, w2) ->
  (isPathNotFound e = true ->
   run h (layerstore.Resume Parse ls uuid) w = (inr ErrLayerUploadUnknown, w2))
  /\ (isPathNotFound e = false ->
      run h (layerstore.Resume Parse ls uuid) w = (inr e, w2)).
Proof.
  intros Hp Hg. split; intros He; open_method; reply_is Hp; reply_is Hg;
    destruct e; try discriminate He; reflexivity.
Qed.

(** C8. When the started-at marker is read and its content does not parse,
    [Resume] fails with the error of the parser, and has made no call beyond
    the read of the marker: no session is built and no start time chosen. *)
Theorem Resume_malformed_timestamp (ls : layerStore) (uuid sp : string)
    (startedAtBytes : list Byte.byte) (e : error) (w w1 w2 : W) :
  h (pm_path (pm (ls_repository ls))
       (uploadStartedAtPathSpec (Name (ls_repository ls)) uuid)) w = (inl sp, w1) ->
  h (driver_GetContent (driver (ls_repository ls)) sp) w1 = (inl startedAtBytes, w2) ->
  Parse (string_of_list_byte startedAtBytes) = inr e ->
  run h (layerstore.Resume Parse ls uuid) w = (inr e, w2)
  /\ calls h (layerstore.Resume Parse ls uuid) w
     = [pm_path (pm (ls_repository ls))
          (uploadStartedAtPathSpec (Name (ls_repository ls)) uuid);
        driver_GetContent (driver (ls_repository ls)) sp].
Proof.
  intros Hp Hg He. unfold calls. split; open_method; reply_is Hp; reply_is Hg;
    rewrite He; reflexivity.
Qed.

(** ** Delete *)

Lemma Delete_succeeds_inv (ls : layerStore) (dgst : Digest) (w w1 : W) :
  run h (layerstore.Delete ls dgst) w = (None, w1) ->
  exists w0,
    h (tombstoneExists (tomb ls) (Name (ls_repository ls)) dgst) w = (inl false, w0)
    /\ h (putTombstone (tomb ls) (Name (ls_repository ls)) dgst) w0 = (None, w1).
Proof.
  open_method.
  destruct (h (tombstoneExists (tomb ls) (Name (ls_repository ls)) dgst) w)
    as [[[|]|e] w0]; cbn [run]; try discriminate.
  destruct (h (putTombstone (tomb ls) (Name (ls_repository ls)) dgst) w0)
    as [[e|] w1'] eqn:Hput; cbn [run]; try discriminate.
  intros [= <-]. exists w0. split; [reflexivity|exact Hput].
Qed.

Lemma Delete_tombstoned (ls : layerStore) (dgst : Digest) (w : W) :
  tombstoned h (tomb ls) (Name (ls_repository ls)) dgst w ->
  fst (run h (layerstore.Delete ls dgst) w) = Some (ErrUnknownLayer dgst)
  /\ calls h (layerstore.Delete ls dgst) w
     = [tombstoneExists (tomb ls) (Name (ls_repository ls)) dgst].
Proof.
  unfold tombstoned, calls. open_method.
  destruct (h (tombstoneExists (tomb ls) (Name (ls_repository ls)) dgst) w) as [r w0].
  cbn [fst]. intros ->. split; reflexivity.
Qed.

Lemma Exists_tombstoned (ls : layerStore) (dgst : Digest) (w : W) :
  tombstoned h (tomb ls) (Name (ls_repository ls)) dgst w ->
  fst (run h (layerstore.Exists ls dgst) w) = (false, None)
  /\ calls h (layerstore.Exists ls dgst) w
     = [tombstoneExists (tomb ls) (Name (ls_repository ls)) dgst].
Proof.
  unfold tombstoned, calls. open_method.
  destruct (h (tombstoneExists (tomb ls) (Name (ls_repository ls)) dgst) w) as [r w0].
  cbn [fst]. intros ->. split; reflexivity.
Qed.

Lemma Fetch_tombstoned (ls : layerStore) (dgst : Digest) (w : W) :
  tombstoned h (tomb ls) (Name (ls_repository ls)) dgst w ->
  fst (run h (layerstore.Fetch ls dgst) w) = inr (ErrUnknownLayer dgst)
  /\ calls h (layerstore.Fetch ls dgst) w
     = [tombstoneExists (tomb ls) (Name (ls_repository ls)) dgst].
Proof.
  unfold tombstoned, calls. open_method.
  destruct (h (tombstoneExists (tomb ls) (Name (ls_repository ls)) dgst) w) as [r w0].
  cbn [fst]. intros ->. split; reflexivity.
Qed.

Lemma Exists_first_call (ls : layerStore) (d : Digest) (v : W) :
  exists rest,
    calls h (layerstore.Exists ls d) v
    = tombstoneExists (tomb ls) (Name (ls_repository ls)) d :: rest.
Proof.
  unfold calls. open_method.
  destruct (h (tombstoneExists (tomb ls) (Name (ls_repository ls)) d) v) as [r v0].
  cbn [map ev_call]. eexists. reflexivity.
Qed.

Lemma Fetch_first_call (ls : layerStore) (d : Digest) (v : W) :
  exists rest,
    calls h (layerstore.Fetch ls d) v
    = tombstoneExists (tomb ls) (Name (ls_repository ls)) d :: rest.
Proof.
  unfold layerstore.Fetch. rewrite calls_bind.
  destruct (Exists_first_call ls d v) as [rest ->]. eexists. reflexivity.
Qed.

(** C1. Once [Delete] of a digest has succeeded, and whatever program has run
    since, [Exists] returns (false, nil) and [Fetch] fails with the
    unknown-layer error of that digest, and each of them has called the
    tombstone manager and nothing else, whatever the link would resolve to.
    In every state, the first call of [Exists] and of [Fetch] is the one to
    the tombstone manager. *)
Theorem tombstone_precedence {A : Type} (Hc : TombstoneContract h)
    (ls : layerStore) (dgst : Digest) (between : prog A) (w w1 : W) :
  run h (layerstore.Delete ls dgst) w = (None, w1) ->
  (fst (run h (layerstore.Exists ls dgst) (snd (run h between w1))) = (false, None)
   /\ calls h (layerstore.Exists ls dgst) (snd (run h between w1))
      = [tombstoneExists (tomb ls) (Name (ls_repository ls)) dgst])
  /\ (fst (run h (layerstore.Fetch ls dgst) (snd (run h between w1)))
      = inr (ErrUnknownLayer dgst)
      /\ calls h (layerstore.Fetch ls dgst) (snd (run h between w1))
         = [tombstoneExists (tomb ls) (Name (ls_repository ls)) dgst])
  /\ (forall d v, exists rest,
        calls h (layerstore.Exists ls d) v
        = tombstoneExists (tomb ls) (Name (ls_repository ls)) d :: rest)
  /\ (forall d v, exists rest,
        calls h (layerstore.Fetch ls d) v
        = tombstoneExists (tomb ls) (Name (ls_repository ls)) d :: rest).
Proof.
  intros Hdel. destruct (Delete_succeeds_inv _ _ _ _ Hdel) as (w0 & _ & Hput).
  pose proof (put_then_exists h Hc _ _ _ _ _ Hput) as Ht.
  pose proof (tombstoned_run h Hc _ _ _ between _ Ht) as Ht2.
  split; [exact (Exists_tombstoned _ _ _ Ht2)|].
  split; [exact (Fetch_tombstoned _ _ _ Ht2)|].
  split; [exact (Exists_first_call ls)|exact (Fetch_first_call ls)].
Qed.

(** C2. For a digest that the tombstone manager reports as not tombstoned,
    and whose tombstone it then writes, the first [Delete] returns nil, having
    asked the manager once and put the tombstone once; after it, and whatever
    program has run since, a second [Delete] fails with the unknown-layer
    error of the digest and its one call is the question to the manager: the
    tombstone is not put again. *)
Theorem Delete_twice {A : Type} (Hc : TombstoneContract h)
    (ls : layerStore) (dgst : Digest) (between : prog A) (w w0 w1 : W) :
  h (tombstoneExists (tomb ls) (Name (ls_repository ls)) dgst) w = (inl false, w0) ->
  h (putTombstone (tomb ls) (Name (ls_repository ls)) dgst) w0 = (None, w1) ->
  (run h (layerstore.Delete ls dgst) w = (None, w1)
   /\ calls h (layerstore.Delete ls dgst) w
      = [tombstoneExists (tomb ls) (Name (ls_repository ls)) dgst;
         putTombstone (tomb ls) (Name (ls_repository ls)) dgst]
   /\ tombstoned h (tomb ls) (Name (ls_repository ls)) dgst w1)
  /\ (fst (run h (layerstore.Delete ls dgst) (snd (run h between w1)))
      = Some (ErrUnknownLayer dgst)
      /\ calls h (layerstore.Delete ls dgst) (snd (run h between w1))
         = [tombstoneExists (tomb ls) (Name (ls_repository ls)) dgst]).
Proof.
  intros Hex Hput.
  pose proof (put_then_exists h Hc _ _ _ _ _ Hput) as Ht.
  split.
  - unfold calls. repeat split; try exact Ht;
      open_method; reply_is Hex; reply_is Hput; reflexivity.
  - apply Delete_tombstoned. apply (tombstoned_run h Hc). exact Ht.
Qed.

(** C9. A [Delete] that succeeds has made two calls, the question to the
    tombstone manager, answered no, and the put of the tombstone of the
    repository name and the digest; the put is the one call of it that
    writes, and the state it leaves is the one those two calls leave.  So
    whatever can be observed of the state and is left alone by these two
    operations of the tombstone manager, the bytes of a blob or a link
    record, is the same after the [Delete] as before. *)
Theorem Delete_only_puts_tombstone (ls : layerStore) (dgst : Digest) (w w1 : W) :
  run h (layerstore.Delete ls dgst) w = (None, w1) ->
  trace h (layerstore.Delete ls dgst) w
  = [Ev (tombstoneExists (tomb ls) (Name (ls_repository ls)) dgst) (inl false);
     Ev (putTombstone (tomb ls) (Name (ls_repository ls)) dgst) None]
  /\ filter writes (calls h (layerstore.Delete ls dgst) w)
     = [putTombstone (tomb ls) (Name (ls_repository ls)) dgst]
  /\ w1 = snd (h (putTombstone (tomb ls) (Name (ls_repository ls)) dgst)
                (snd (h (tombstoneExists (tomb ls) (Name (ls_repository ls)) dgst) w)))
  /\ (forall (B : Type) (observe : W -> B),
        (forall v, observe (snd (h (tombstoneExists (tomb ls)
                                      (Name (ls_repository ls)) dgst) v)) = observe v) ->
        (forall v, observe (snd (h (putTombstone (tomb ls)
                                      (Name (ls_repository ls)) dgst) v)) = observe v) ->
        observe w1 = observe w).
Proof.
  intros Hdel. destruct (Delete_succeeds_inv _ _ _ _ Hdel) as (w0 & Hex & Hput).
  assert (Htrace : trace h (layerstore.Delete ls dgst) w
    = [Ev (tombstoneExists (tomb ls) (Name (ls_repository ls)) dgst) (inl false);
       Ev (putTombstone (tomb ls) (Name (ls_repository ls)) dgst) None])
    by (open_method; reply_is Hex; reply_is Hput; reflexivity).
  split; [exact Htrace|].
  split; [unfold calls; rewrite Htrace; reflexivity|].
  split; [rewrite Hex; cbn [snd]; rewrite Hput; reflexivity|].
  intros B observe Hq Hp.
  pose proof (Hq w) as Hq'. rewrite Hex in Hq'. cbn [snd] in Hq'.
  pose proof (Hp w0) as Hp'. rewrite Hput in Hp'. cbn [snd] in Hp'.
  congruence.
Qed.

(** ** Upload *)

(** C4. [Upload] makes no call that looks whether content or another upload
    is already there.  It always starts by drawing a token and reading the
    clock.  When it fails, its error is the error of a path mapping, of the
    write of the started-at marker or of the allocation of the writer, one of
    the calls it made.  When it succeeds, it has mapped the data path and the
    started-at path of the token, written the formatted start time at the
    started-at path, allocated the writer at the data path, and the session
    it returns is bound to the store, the token, the start time, the writer
    and a tombstone manager of its own, made of the default path mapper and
    the driver of the repository. *)
Theorem Upload_always_proceeds (ls : layerStore) (w : W) :
  forallb (fun c => negb (existenceCheck c)) (calls h (layerstore.Upload Format ls) w) = true
  /\ (exists uuid startedAt rest,
        trace h (layerstore.Upload Format ls) w
        = Ev uuid_New uuid :: Ev time_Now_UTC startedAt :: rest)
  /\ match fst (run h (layerstore.Upload Format ls) w) with
     | inr e =>
       exists ev, In ev (trace h (layerstore.Upload Format ls) w) /\ failure ev = Some e
     | inl lw =>
       exists uuid startedAt path startedAtPath fw dg,
         trace h (layerstore.Upload Format ls) w
         = [Ev uuid_New uuid;
            Ev time_Now_UTC startedAt;
            Ev (pm_path (pm (ls_repository ls))
                  (uploadDataPathSpec (Name (ls_repository ls)) uuid)) (inl path);
            Ev (pm_path (pm (ls_repository ls))
                  (uploadStartedAtPathSpec (Name (ls_repository ls)) uuid))
               (inl startedAtPath);
            Ev (driver_PutContent (driver (ls_repository ls)) startedAtPath
                  (list_byte_of_string (Format startedAt))) None;
            Ev (newFileWriter (driver (ls_repository ls)) path) (inl fw);
            Ev (setupResumableDigester uuid) dg]
         /\ lw = {| lw_layerStore := ls;
                    lw_uuid := uuid;
                    lw_startedAt := startedAt;
                    lw_bufferedFileWriter := fw;
                    lw_tomb := {| tomb_pm := defaultPathMapper;
                                  tomb_driver := driver (ls_repository ls) |};
                    lw_resumableDigester := dg |}
     end.
Proof.
  unfold calls. open_method.
  destruct (h uuid_New w) as [uuid wa]. cbn [run trace bind].
  destruct (h time_Now_UTC wa) as [startedAt wb]. cbn [run trace bind].
  destruct (h (pm_path (pm (ls_repository ls))
                 (uploadDataPathSpec (Name (ls_repository ls)) uuid)) wb)
    as [[path|e] wc]; cbn [run trace bind fst].
  2: { split; [reflexivity|]. split; [eexists _, _, _; reflexivity|].
       eexists. split; [right; right; left; reflexivity|reflexivity]. }
  destruct (h (pm_path (pm (ls_repository ls))
                 (uploadStartedAtPathSpec (Name (ls_repository ls)) uuid)) wc)
    as [[startedAtPath|e] wd]; cbn [run trace bind fst].
  2: { split; [reflexivity|]. split; [eexists _, _, _; reflexivity|].
       eexists. split; [do 3 right; left; reflexivity|reflexivity]. }
  destruct (h (driver_PutContent (driver (ls_repository ls)) startedAtPath
                 (list_byte_of_string (Format startedAt))) wd)
    as [[e|] we]; cbn [run trace bind fst].
  1: { split; [reflexivity|]. split; [eexists _, _, _; reflexivity|].
       eexists. split; [do 4 right; left; reflexivity|reflexivity]. }
  destruct (h (newFileWriter (driver (ls_repository ls)) path) we)
    as [[fw|e] wf]; cbn [run trace bind fst].
  2: { split; [reflexivity|]. split; [eexists _, _, _; reflexivity|].
       eexists. split; [do 5 right; left; reflexivity|reflexivity]. }
  destruct (h (setupResumableDigester uuid) wf) as [dg wg]. cbn [run trace bind fst].
  split; [reflexivity|]. split; [eexists _, _, _; reflexivity|].
  exists uuid, startedAt, path, startedAtPath, fw, dg. split; reflexivity.
Qed.

Lemma Upload_succeeds_inv (ls : layerStore) (lw : layerWriter) (w w1 : W) :
  run h (layerstore.Upload Format ls) w = (inl lw, w1) ->
  exists path startedAtPath fw dg wa wb wc wd we wf,
    h uuid_New w = (lw_uuid lw, wa)
    /\ h time_Now_UTC wa = (lw_startedAt lw, wb)
    /\ h (pm_path (pm (ls_repository ls))
            (uploadDataPathSpec (Name (ls_repository ls)) (lw_uuid lw))) wb
       = (inl path, wc)
    /\ h (pm_path (pm (ls_repository ls))
            (uploadStartedAtPathSpec (Name (ls_repository ls)) (lw_uuid lw))) wc
       = (inl startedAtPath, wd)
    /\ h (driver_PutContent (driver (ls_repository ls)) startedAtPath
            (list_byte_of_string (Format (lw_startedAt lw)))) wd = (None, we)
    /\ h (newFileWriter (driver (ls_repository ls)) path) we = (inl fw, wf)
    /\ h (setupResumableDigester (lw_uuid lw)) wf = (dg, w1).
Proof.
  open_method.
  destruct (h uuid_New w) as [uuid wa] eqn:Eu. cbn [run bind].
  destruct (h time_Now_UTC wa) as [startedAt wb] eqn:En. cbn [run bind].
  destruct (h (pm_path (pm (ls_repository ls))
                 (uploadDataPathSpec (Name (ls_repository ls)) uuid)) wb)
    as [[path|e] wc] eqn:E1; cbn [run bind]; [|discriminate].
  destruct (h (pm_path (pm (ls_repository ls))
                 (uploadStartedAtPathSpec (Name (ls_repository ls)) uuid)) wc)
    as [[startedAtPath|e] wd] eqn:E2; cbn [run bind]; [|discriminate].
  destruct (h (driver_PutContent (driver (ls_repository ls)) startedAtPath
                 (list_byte_of_string (Format startedAt))) wd)
    as [[e|] we] eqn:E3; cbn [run bind]; [discriminate|].
  destruct (h (newFileWriter (driver (ls_repository ls)) path) we)
    as [[fw|e] wf] eqn:E4; cbn [run bind]; [|discriminate].
  destruct (h (setupResumableDigester uuid) wf) as [dg wg] eqn:E5. cbn [run bind].
  intros [= <- <-]. cbn [lw_uuid lw_startedAt set_resumableDigester].
  exists path, startedAtPath, fw, dg, wa, wb, wc, wd, we, wf.
  repeat split; assumption.
Qed.

End LayerStore.

(** * The collaborators in memory keep their contracts *)

Section InMemory.

Import inmemory.

Lemma tombstoned_inmemory (t : tombstone) (name : string) (d : Digest) (w : World) :
  tombstoned collaborators t name d w <->
  exists p, tombstonePath (tomb_pm t) name d = inl p
            /\ outage w !! tomb_driver t = None
            /\ is_Some (files w !! (tomb_driver t, p)).
Proof.
  unfold tombstoned. cbn [collaborators fst]. unfold tombstone_exists, Stat.
  destruct (tombstonePath (tomb_pm t) name d) as [p|e].
  - destruct (outage w !! tomb_driver t) as [e|] eqn:Ho.
    + split; [destruct e; discriminate|]. intros (p' & _ & Hn & _). discriminate.
    + destruct (files w !! (tomb_driver t, p)) as [content|] eqn:Hf.
      * split; [|reflexivity]. intros _. exists p. eauto.
      * split; [discriminate|]. intros (p' & [= <-] & _ & Hs).
        rewrite Hf in Hs. destruct Hs as [? [=]].
  - split; [discriminate|]. intros (p' & [=] & _).
Qed.

(** No call takes a path away or changes which drivers are down. *)
Lemma files_grow (c : call) (w : World) :
  outage (snd (collaborators c w)) = outage w
  /\ forall k, is_Some (files w !! k) -> is_Some (files (snd (collaborators c w)) !! k).
Proof.
  destruct c; cbn [collaborators snd]; try (split; [reflexivity|tauto]).
  - unfold put_tombstone. destruct (tombstonePath (tomb_pm t) name dgst) as [p|e];
      [|split; [reflexivity|tauto]].
    unfold PutContent. destruct (outage w !! tomb_driver t);
      cbn [snd set_files outage files]; (split; [reflexivity|]); [tauto|].
    intros k Hk. rewrite lookup_insert. case_decide; [eauto|exact Hk].
  - unfold PutContent. destruct (outage w !! d);
      cbn [snd set_files outage files]; (split; [reflexivity|]); [tauto|].
    intros k Hk. rewrite lookup_insert. case_decide; [eauto|exact Hk].
  - destruct (uuids w); cbn [snd set_uuids outage files]; split; (reflexivity || tauto).
Qed.

Lemma inmemory_tombstones : TombstoneContract collaborators.
Proof.
  split.
  - intros t name d w w' Hput. apply tombstoned_inmemory.
    cbn [collaborators] in Hput. unfold put_tombstone in Hput.
    destruct (tombstonePath (tomb_pm t) name d) as [p|e]; [|discriminate].
    unfold PutContent in Hput.
    destruct (outage w !! tomb_driver t) eqn:Ho; [discriminate|].
    injection Hput as <-. exists p. cbn [set_files outage files].
    rewrite lookup_insert_eq. eauto.
  - intros t name d c w Ht. apply tombstoned_inmemory in Ht.
    destruct Ht as (p & Hp & Ho & Hf). apply tombstoned_inmemory.
    destruct (files_grow c w) as [Hout Hgrow].
    exists p. rewrite Hout. eauto.
Qed.

(** A call that does not write leaves the files and the outages. *)
Lemma reads_keep_files (c : call) (w : World) :
  writes c = false ->
  outage (snd (collaborators c w)) = outage w
  /\ files (snd (collaborators c w)) = files w.
Proof.
  destruct c; cbn [writes collaborators snd]; try discriminate;
    intros _; try (split; reflexivity).
  destruct (uuids w); split; reflexivity.
Qed.

Lemma inmemory_store : StoreContract collaborators.
Proof.
  split.
  - intros m spec w w'. reflexivity.
  - intros d p content w w' Hput. unfold holds.
    cbn [collaborators fst] in *. unfold PutContent in Hput. unfold GetContent.
    destruct (outage w !! d) eqn:Ho; [discriminate|].
    injection Hput as <-. cbn [set_files outage files].
    rewrite Ho, lookup_insert_eq. reflexivity.
  - intros d p content c w Hc. unfold holds.
    destruct (reads_keep_files c w Hc) as [Ho Hf].
    cbn [collaborators fst]. unfold GetContent. rewrite Ho, Hf. tauto.
Qed.

End InMemory.

(** * The start time of a resumed upload *)

Section Resumption.

Context {W : Type} (h : handler W).

(** C3, as the code has it.  The started-at marker is written in a layout
    that has whole seconds only.  For a store that keeps its contract, a
    session that [Upload] returned with start time [S], in a year the layout
    prints in four digits, is resumed, unless the writer cannot be allocated
    again, as a session of the same token whose start time is [S] without its
    fraction of a second; it is [S] itself when [S] has no such fraction. *)
Theorem Resume_start_time (Hs : StoreContract h)
    (ls : layerStore) (lw : layerWriter) (w w1 : W) :
  0 <= gotime.Year (lw_startedAt lw) <= 9999 ->
  run h (layerstore.Upload gotime.Format ls) w = (inl lw, w1) ->
  existsb writerFailed
    (trace h (layerstore.Resume gotime.Parse ls (lw_uuid lw)) w1) = false ->
  exists lw',
    fst (run h (layerstore.Resume gotime.Parse ls (lw_uuid lw)) w1) = inl lw'
    /\ lw_uuid lw' = lw_uuid lw
    /\ lw_startedAt lw' = gotime.truncateSecond (lw_startedAt lw)
    /\ (nsec (lw_startedAt lw) = 0 -> lw_startedAt lw' = lw_startedAt lw).
Proof.
  intros Hyear Hup.
  destruct (Upload_succeeds_inv h gotime.Format ls lw w w1 Hup)
    as (path & sp & fw & dg & wa & wb & wc & wd & we & wf
        & _ & _ & Hdata & Hsp & Hput & Hfw & Hdg).
  set (uuid := lw_uuid lw) in *. set (S := lw_startedAt lw) in *.
  (* the marker is still there when Resume reads it *)
  pose proof (put_then_get h Hs _ _ _ _ _ Hput) as Hholds.
  apply (content_stays h Hs _ _ _ (newFileWriter (driver (ls_repository ls)) path))
    in Hholds; [|reflexivity].
  rewrite Hfw in Hholds. cbn [snd] in Hholds.
  apply (content_stays h Hs _ _ _ (setupResumableDigester uuid)) in Hholds; [|reflexivity].
  rewrite Hdg in Hholds. cbn [snd] in Hholds.
  apply (content_stays h Hs _ _ _
           (pm_path (pm (ls_repository ls))
              (uploadStartedAtPathSpec (Name (ls_repository ls)) uuid)))
    in Hholds; [|reflexivity].
  (* the path mapper gives the paths it gave to Upload *)
  pose proof (pm_path_pure h Hs (pm (ls_repository ls))
                (uploadStartedAtPathSpec (Name (ls_repository ls)) uuid) w1 wc) as Hsp'.
  rewrite Hsp in Hsp'. cbn [fst] in Hsp'.
  unfold layerstore.Resume, layerstore.newLayerUpload, perform.
  cbn [run trace bind].
  destruct (h (pm_path (pm (ls_repository ls))
                 (uploadStartedAtPathSpec (Name (ls_repository ls)) uuid)) w1)
    as [r1 w2]. cbn [fst snd] in Hsp', Hholds. subst r1. cbn [run trace bind].
  unfold holds in Hholds.
  destruct (h (driver_GetContent (driver (ls_repository ls)) sp) w2) as [r2 w3].
  cbn [fst] in Hholds. subst r2. cbn [run trace bind].
  rewrite string_of_list_byte_of_string.
  rewrite (gotime_facts.Parse_Format S Hyear). cbn [run trace bind].
  pose proof (pm_path_pure h Hs (pm (ls_repository ls))
                (uploadDataPathSpec (Name (ls_repository ls)) uuid) w3 wb) as Hdata'.
  rewrite Hdata in Hdata'. cbn [fst] in Hdata'.
  destruct (h (pm_path (pm (ls_repository ls))
                 (uploadDataPathSpec (Name (ls_repository ls)) uuid)) w3)
    as [r3 w4]. cbn [fst] in Hdata'. subst r3. cbn [run trace bind].
  destruct (h (newFileWriter (driver (ls_repository ls)) path) w4) as [[fw'|e] w5];
    cbn [run trace bind existsb writerFailed orb]; [|discriminate].
  destruct (h (setupResumableDigester uuid) w5) as [dg' w6].
  cbn [run trace bind fst]. intros _.
  eexists. split; [reflexivity|].
  cbn [lw_uuid lw_startedAt set_resumableDigester].
  split; [reflexivity|]. split; [reflexivity|].
  intros Hns. unfold gotime.truncateSecond. destruct S as [s ns].
  cbn [sec nsec] in *. now subst ns.
Qed.

End Resumption.

(** * The statements at work on the sample registry *)

Section Samples.

Import inmemory.

Local Abbreviation h := collaborators.

(** A run at a sample: the result is computed, the world is read off. *)
Ltac by_running :=
  first [ apply result_and_world; [vm_compute; reflexivity | reflexivity]
        | vm_compute; reflexivity ].

(** C3, as the spec has it, fails: the clock reads half a second past
    2015-03-05T12:00:00Z, the session that [Upload] returns starts then, and
    the session that [Resume] returns for its token starts at the full
    second. *)
Lemma Resume_start_time_not_exact :
  run h (layerstore.Upload gotime.Format sampleStore) emptyWorld
  = (inl sampleSession, uploadedWorld)
  /\ lw_startedAt sampleSession = mkTime 1425556800 500000000
  /\ exists lw',
       fst (run h (layerstore.Resume gotime.Parse sampleStore (lw_uuid sampleSession))
              uploadedWorld) = inl lw'
       /\ lw_startedAt lw' = mkTime 1425556800 0
       /\ lw_startedAt lw' <> lw_startedAt sampleSession.
Proof.
  split; [by_running|]. split; [reflexivity|].
  eexists. split; [vm_compute; reflexivity|]. split; [reflexivity|].
  cbn. intros [=].
Qed.

Lemma Resume_start_time_witness :
  run h (layerstore.Upload gotime.Format sampleStore) emptyWorld
  = (inl sampleSession, uploadedWorld)
  /\ exists lw',
       fst (run h (layerstore.Resume gotime.Parse sampleStore (lw_uuid sampleSession))
              uploadedWorld) = inl lw'
       /\ lw_startedAt lw' = mkTime 1425556800 0.
Proof.
  assert (Hup : run h (layerstore.Upload gotime.Format sampleStore) emptyWorld
                = (inl sampleSession, uploadedWorld)) by by_running.
  split; [exact Hup|].
  destruct (Resume_start_time h inmemory_store sampleStore sampleSession
              emptyWorld uploadedWorld
              ltac:(vm_compute; split; discriminate) Hup
              ltac:(by_running))
    as (lw' & Hrun & _ & Hstart & _).
  exists lw'. split; [exact Hrun|exact Hstart].
Defined.

Lemma tombstone_precedence_witness :
  run h (layerstore.Delete sampleStore sampleDigest) linkedWorld = (None, deletedWorld)
  /\ fst (run h (layerstore.Exists sampleStore sampleDigest)
            (snd (run h (layerstore.Upload gotime.Format sampleStore) deletedWorld)))
     = (false, None)
  /\ fst (run h (layerstore.Fetch sampleStore sampleDigest)
            (snd (run h (layerstore.Upload gotime.Format sampleStore) deletedWorld)))
     = inr (ErrUnknownLayer sampleDigest).
Proof.
  assert (Hdel : run h (layerstore.Delete sampleStore sampleDigest) linkedWorld
                 = (None, deletedWorld)) by by_running.
  destruct (tombstone_precedence h inmemory_tombstones sampleStore sampleDigest
              (layerstore.Upload gotime.Format sampleStore) linkedWorld deletedWorld Hdel)
    as ((Hexists & _) & (Hfetch & _) & _).
  split; [exact Hdel|]. split; [exact Hexists|exact Hfetch].
Defined.

Lemma Delete_twice_witness :
  run h (layerstore.Delete sampleStore sampleDigest) linkedWorld = (None, deletedWorld)
  /\ fst (run h (layerstore.Delete sampleStore sampleDigest)
            (snd (run h (layerstore.Fetch sampleStore sampleDigest) deletedWorld)))
     = Some (ErrUnknownLayer sampleDigest).
Proof.
  destruct (Delete_twice h inmemory_tombstones sampleStore sampleDigest
              (layerstore.Fetch sampleStore sampleDigest)
              linkedWorld linkedWorld deletedWorld
              ltac:(by_running) ltac:(by_running))
    as ((Hfirst & _) & (Hsecond & _)).
  split; [exact Hfirst|exact Hsecond].
Defined.

Lemma Resume_unknown_upload_witness :
  run h (layerstore.Resume gotime.Parse sampleStore "6b3c") emptyWorld
  = (inr ErrLayerUploadUnknown, emptyWorld)
  /\ run h (layerstore.Resume gotime.Parse sampleStore "6b3c") downWorld
     = (inr (OtherError "i/o timeout"), downWorld).
Proof.
  split.
  - apply (proj1 (Resume_unknown_upload h gotime.Parse sampleStore "6b3c"
                    sampleStartedAtPath (PathNotFoundError sampleStartedAtPath)
                    emptyWorld emptyWorld emptyWorld
                    ltac:(by_running) ltac:(by_running))).
    reflexivity.
  - apply (proj2 (Resume_unknown_upload h gotime.Parse sampleStore "6b3c"
                    sampleStartedAtPath (OtherError "i/o timeout")
                    downWorld downWorld downWorld
                    ltac:(by_running) ltac:(by_running))).
    reflexivity.
Defined.

Lemma Exists_not_tombstoned_witness :
  run h (layerstore.Exists sampleStore sampleDigest) emptyWorld
  = ((false, None), emptyWorld)
  /\ run (scripted rejectedName) (layerstore.Exists sampleStore sampleDigest) tt
     = ((false, Some (OtherError "invalid repository name")), tt)
  /\ run h (layerstore.Exists sampleStore sampleDigest) garbledWorld
     = ((false, Some (OtherError "invalid checksum digest format")), garbledWorld)
  /\ run h (layerstore.Exists sampleStore sampleDigest) danglingWorld
     = ((false, Some (PathNotFoundError sampleBlobPath)), danglingWorld)
  /\ run h (layerstore.Exists sampleStore sampleDigest) linkedWorld
     = ((true, None), linkedWorld).
Proof.
  split; [|split; [|split; [|split]]].
  - destruct (Exists_not_tombstoned h sampleStore sampleDigest emptyWorld emptyWorld
                ltac:(by_running)) as (Hmissing & _).
    apply (Hmissing sampleLinkPath sampleLinkPath emptyWorld emptyWorld); by_running.
  - destruct (Exists_not_tombstoned (scripted rejectedName) sampleStore sampleDigest tt tt
                ltac:(by_running)) as (_ & Hmapper & _).
    apply (Hmapper (OtherError "invalid repository name") tt); reflexivity.
  - destruct (Exists_not_tombstoned h sampleStore sampleDigest garbledWorld garbledWorld
                ltac:(by_running)) as (_ & _ & Hother & _).
    apply (Hother sampleLinkPath (OtherError "invalid checksum digest format")
             garbledWorld garbledWorld); by_running.
  - destruct (Exists_not_tombstoned h sampleStore sampleDigest danglingWorld danglingWorld
                ltac:(by_running)) as (_ & _ & _ & Hstat & _).
    apply (Hstat sampleLinkPath sampleBlobPath (PathNotFoundError sampleBlobPath)
             danglingWorld danglingWorld danglingWorld); by_running.
  - destruct (Exists_not_tombstoned h sampleStore sampleDigest linkedWorld linkedWorld
                ltac:(by_running)) as (_ & _ & _ & _ & Hfound).
    apply (Hfound sampleLinkPath sampleBlobPath
             {| fi_path := sampleBlobPath; fi_size := 11 |}
             linkedWorld linkedWorld linkedWorld); by_running.
Defined.

Lemma Exists_dangling_link_witness :
  run h (layerstore.Exists sampleStore sampleDigest) danglingWorld
  = ((false, Some (PathNotFoundError sampleBlobPath)), danglingWorld).
Proof.
  apply (proj1 (Exists_dangling_link h sampleStore sampleDigest
                  sampleLinkPath sampleBlobPath (PathNotFoundError sampleBlobPath)
                  danglingWorld danglingWorld danglingWorld danglingWorld danglingWorld
                  ltac:(by_running) ltac:(by_running)
                  ltac:(by_running) ltac:(by_running))).
Defined.

Lemma Fetch_after_Exists_witness :
  fst (run h (layerstore.Fetch sampleStore sampleDigest) emptyWorld)
  = inr (ErrUnknownLayer sampleDigest)
  /\ fst (run h (layerstore.Fetch sampleStore sampleDigest) downWorld)
     = inr (OtherError "i/o timeout")
  /\ lr_digest {| lr_fileReader :=
                    {| fr_driver := 0%nat; fr_path := sampleBlobPath; fr_size := 11 |};
                  lr_digest := sampleDigest |} = sampleDigest.
Proof.
  split; [|split].
  - destruct (Fetch_after_Exists h sampleStore sampleDigest emptyWorld)
      as (_ & _ & Hfalse & _).
    apply Hfalse. vm_compute. reflexivity.
  - destruct (Fetch_after_Exists h sampleStore sampleDigest downWorld)
      as (_ & _ & _ & Herror & _).
    apply (Herror false). vm_compute. reflexivity.
  - destruct (Fetch_after_Exists h sampleStore sampleDigest linkedWorld)
      as (_ & _ & _ & _ & Hreader).
    apply Hreader. vm_compute. reflexivity.
Defined.

Lemma Resume_malformed_timestamp_witness :
  run h (layerstore.Resume gotime.Parse sampleStore "6b3c") malformedWorld
  = (inr (ParseError "yesterday"), malformedWorld).
Proof.
  apply (proj1 (Resume_malformed_timestamp h gotime.Parse sampleStore "6b3c"
                  sampleStartedAtPath (list_byte_of_string "yesterday")
                  (ParseError "yesterday") malformedWorld malformedWorld malformedWorld
                  ltac:(by_running) ltac:(by_running)
                  ltac:(by_running))).
Defined.

Lemma putTombstone_keeps_linkAndBlob (v : World) :
  linkAndBlob (snd (h (putTombstone (tomb sampleStore)
                         (Name (ls_repository sampleStore)) sampleDigest) v))
  = linkAndBlob v.
Proof.
  cbn [collaborators snd]. unfold put_tombstone.
  change (tombstonePath (tomb_pm (tomb sampleStore))
            (Name (ls_repository sampleStore)) sampleDigest)
    with (inl (B := error)
            "/docker/registry/v2/repositories/library/ubuntu/_layers/sha256/ab12/tombstone").
  unfold PutContent. destruct (outage v !! tomb_driver (tomb sampleStore)); [reflexivity|].
  unfold linkAndBlob. cbn [snd set_files files].
  rewrite !lookup_insert_ne by (intros [=]). reflexivity.
Qed.

Lemma Delete_only_puts_tombstone_witness :
  run h (layerstore.Delete sampleStore sampleDigest) linkedWorld = (None, deletedWorld)
  /\ linkAndBlob deletedWorld = linkAndBlob linkedWorld.
Proof.
  assert (Hdel : run h (layerstore.Delete sampleStore sampleDigest) linkedWorld
                 = (None, deletedWorld)) by by_running.
  destruct (Delete_only_puts_tombstone h sampleStore sampleDigest
              linkedWorld deletedWorld Hdel) as (_ & _ & _ & Hframe).
  split; [exact Hdel|].
  apply (Hframe _ linkAndBlob); [reflexivity|exact putTombstone_keeps_linkAndBlob].
Defined.

End Samples.

(** * More of the layer store *)

Section LayerStoreMore.

Context {W : Type} (h : handler W).
Variable Format : Time -> string.
Variable Parse : string -> result Time.

Ltac reply_is H := rewrite H; cbn [run trace bind fst snd].
Ltac open_method :=
  unfold layerstore.Fetch, layerstore.Exists,
    layerstore.Delete, layerstore.Upload, layerstore.Resume,
    layerstore.newLayerUpload, layerstore.path, layerstore.afterStat, perform;
  cbn [run trace bind fst snd].

(** ** path *)

(** X1. [path] asks the blob store only when the path mapper has given the
    link path.  When the blob store answers with the driver's not-found
    error, [path] fails with the unknown-layer error of the digest asked for;
    when it answers with a blob path, [path] returns it; and whatever the
    blob store answers, the driver's not-found error is never what [path]
    returns. *)
Theorem path_hides_not_found (ls : layerStore) (dgst : Digest) (w : W) :
  (forall e w1,
      h (pm_path (pm (ls_repository ls))
           (layerLinkPathSpec (Name (ls_repository ls)) dgst)) w = (inr e, w1) ->
      run h (layerstore.path ls dgst) w = (inr e, w1)
      /\ calls h (layerstore.path ls dgst) w
         = [pm_path (pm (ls_repository ls))
              (layerLinkPathSpec (Name (ls_repository ls)) dgst)])
  /\ (forall lp w1,
      h (pm_path (pm (ls_repository ls))
           (layerLinkPathSpec (Name (ls_repository ls)) dgst)) w = (inl lp, w1) ->
      (forall p w2,
          h (blobStore_resolve (repo_blobStore (ls_repository ls)) lp) w1
          = (inr (PathNotFoundError p), w2) ->
          run h (layerstore.path ls dgst) w = (inr (ErrUnknownLayer dgst), w2))
      /\ (forall bp w2,
          h (blobStore_resolve (repo_blobStore (ls_repository ls)) lp) w1 = (inl bp, w2) ->
          run h (layerstore.path ls dgst) w = (inl bp, w2))
      /\ (forall p, fst (run h (layerstore.path ls dgst) w) <> inr (PathNotFoundError p))).
Proof.
  split.
  - intros e w1 Hp. unfold calls. split; open_method; reply_is Hp; reflexivity.
  - intros lp w1 Hp. repeat split.
    + intros p w2 Hr. open_method. reply_is Hp. reply_is Hr. reflexivity.
    + intros bp w2 Hr. open_method. reply_is Hp. reply_is Hr. reflexivity.
    + intros p. open_method. reply_is Hp.
      destruct (h (blobStore_resolve (repo_blobStore (ls_repository ls)) lp) w1)
        as [[bp|e] w2]; cbn [run fst]; [discriminate|].
      destruct e; cbn [run fst]; discriminate.
Qed.

(** ** Exists *)

(** X2. [Exists] returns true exactly when the tombstone manager said no, the
    path mapper gave the link path, the blob store resolved it and the driver
    could stat the blob path; and it never returns true together with an
    error. *)
Theorem Exists_true_iff (ls : layerStore) (digest : Digest) (w : W) :
  (fst (fst (run h (layerstore.Exists ls digest) w)) = true <->
   exists lp bp fi w1 w2 w3 w4,
     h (tombstoneExists (tomb ls) (Name (ls_repository ls)) digest) w = (inl false, w1)
     /\ h (pm_path (pm (ls_repository ls))
             (layerLinkPathSpec (Name (ls_repository ls)) digest)) w1 = (inl lp, w2)
     /\ h (blobStore_resolve (repo_blobStore (ls_repository ls)) lp) w2 = (inl bp, w3)
     /\ h (driver_Stat (driver (ls_repository ls)) bp) w3 = (inl fi, w4))
  /\ (fst (fst (run h (layerstore.Exists ls digest) w)) = true ->
      snd (fst (run h (layerstore.Exists ls digest) w)) = None).
Proof.
  assert (Hfwd : fst (fst (run h (layerstore.Exists ls digest) w)) = true ->
    snd (fst (run h (layerstore.Exists ls digest) w)) = None
    /\ exists lp bp fi w1 w2 w3 w4,
     h (tombstoneExists (tomb ls) (Name (ls_repository ls)) digest) w = (inl false, w1)
     /\ h (pm_path (pm (ls_repository ls))
             (layerLinkPathSpec (Name (ls_repository ls)) digest)) w1 = (inl lp, w2)
     /\ h (blobStore_resolve (repo_blobStore (ls_repository ls)) lp) w2 = (inl bp, w3)
     /\ h (driver_Stat (driver (ls_repository ls)) bp) w3 = (inl fi, w4)).
  { open_method.
    destruct (h (tombstoneExists (tomb ls) (Name (ls_repository ls)) digest) w)
      as [[[|]|e0] w1]; cbn [run fst snd bind]; try discriminate.
    destruct (h (pm_path (pm (ls_repository ls))
                   (layerLinkPathSpec (Name (ls_repository ls)) digest)) w1)
      as [[lp|e1] w2] eqn:Hp; cbn [run fst snd bind];
      [|destruct e1; cbn [run fst snd]; discriminate].
    destruct (h (blobStore_resolve (repo_blobStore (ls_repository ls)) lp) w2)
      as [[bp|e2] w3] eqn:Hr; cbn [run fst snd bind];
      [|destruct e2; cbn [run fst snd]; discriminate].
    destruct (h (driver_Stat (driver (ls_repository ls)) bp) w3)
      as [[fi|e3] w4] eqn:Hs; cbn [run fst snd]; [|discriminate].
    intros _. split; [reflexivity|].
    exists lp, bp, fi, w1, w2, w3, w4. auto. }
  split; [split|].
  - intros Htrue. exact (proj2 (Hfwd Htrue)).
  - intros (lp & bp & fi & w1 & w2 & w3 & w4 & Ht & Hp & Hr & Hs).
    open_method. reply_is Ht. reply_is Hp. reply_is Hr. reply_is Hs. reflexivity.
  - intros Htrue. exact (proj1 (Hfwd Htrue)).
Qed.

(** ** The tombstone check *)

(** X3. When the tombstone manager cannot tell whether the digest is
    tombstoned, [Exists], [Fetch] and [Delete] each return its error and make
    no other call: no link is resolved and no tombstone is put. *)
Theorem tombstone_check_fails (ls : layerStore) (dgst : Digest) (e : error) (w w1 : W) :
  h (tombstoneExists (tomb ls) (Name (ls_repository ls)) dgst) w = (inr e, w1) ->
  (run h (layerstore.Exists ls dgst) w = ((false, Some e), w1)
   /\ calls h (layerstore.Exists ls dgst) w
      = [tombstoneExists (tomb ls) (Name (ls_repository ls)) dgst])
  /\ (run h (layerstore.Fetch ls dgst) w = (inr e, w1)
      /\ calls h (layerstore.Fetch ls dgst) w
         = [tombstoneExists (tomb ls) (Name (ls_repository ls)) dgst])
  /\ (run h (layerstore.Delete ls dgst) w = (Some e, w1)
      /\ calls h (layerstore.Delete ls dgst) w
         = [tombstoneExists (tomb ls) (Name (ls_repository ls)) dgst]).
Proof.
  intros Ht. unfold calls.
  repeat split; open_method; reply_is Ht; reflexivity.
Qed.

(** ** Delete *)

(** X4. [Delete] returns nil exactly when the tombstone manager said that the
    digest is not tombstoned and then put the tombstone; when the put fails,
    [Delete] returns the error of the put. *)
Theorem Delete_result (ls : layerStore) (dgst : Digest) (w : W) :
  (forall w1,
      run h (layerstore.Delete ls dgst) w = (None, w1) <->
      exists w0,
        h (tombstoneExists (tomb ls) (Name (ls_repository ls)) dgst) w = (inl false, w0)
        /\ h (putTombstone (tomb ls) (Name (ls_repository ls)) dgst) w0 = (None, w1))
  /\ (forall e w0 w1,
      h (tombstoneExists (tomb ls) (Name (ls_repository ls)) dgst) w = (inl false, w0) ->
      h (putTombstone (tomb ls) (Name (ls_repository ls)) dgst) w0 = (Some e, w1) ->
      run h (layerstore.Delete ls dgst) w = (Some e, w1)
      /\ calls h (layerstore.Delete ls dgst) w
         = [tombstoneExists (tomb ls) (Name (ls_repository ls)) dgst;
            putTombstone (tomb ls) (Name (ls_repository ls)) dgst]).
Proof.
  split.
  - intros w1. split.
    + apply Delete_succeeds_inv.
    + intros (w0 & Hex & Hput). open_method. reply_is Hex. reply_is Hput. reflexivity.
  - intros e w0 w1 Hex Hput. unfold calls.
    split; open_method; reply_is Hex; reply_is Hput; reflexivity.
Qed.

(** ** What the methods never do *)

(** One step of a run: the next call answers one way or the other. *)
Ltac next_reply :=
  match goal with
  | |- context [h ?c ?w] =>
    let r := fresh "r" in
    let v := fresh "v" in
    destruct (h c w) as [r v]; cbn [reply] in r;
    lazymatch type of r with
    | result _ => destruct r as [?|?]
    | option error => destruct r as [?|]
    | _ => idtac
    end;
    cbn [run trace bind fst snd map ev_call filter writes app negb existenceCheck
         drawsFresh forallb andb]
  | |- context [match ?e with ErrUnknownLayer _ => _ | _ => _ end] =>
    destruct e;
    cbn [run trace bind fst snd map ev_call filter writes app negb existenceCheck
         drawsFresh forallb andb]
  | |- context [if ?b then _ else _] =>
    is_var b; destruct b;
    cbn [run trace bind fst snd map ev_call filter writes app negb existenceCheck
         drawsFresh forallb andb]
  | |- context [match Parse ?s with inl _ => _ | inr _ => _ end] =>
    destruct (Parse s);
    cbn [run trace bind fst snd map ev_call filter writes app negb existenceCheck
         drawsFresh forallb andb]
  end.

Lemma path_makes_no_write (ls : layerStore) (dgst : Digest) (w : W) :
  filter writes (calls h (layerstore.path ls dgst) w) = [].
Proof. unfold calls. open_method. repeat next_reply; reflexivity. Qed.

Lemma Exists_makes_no_write (ls : layerStore) (dgst : Digest) (w : W) :
  filter writes (calls h (layerstore.Exists ls dgst) w) = [].
Proof. unfold calls. open_method. repeat next_reply; reflexivity. Qed.

(** X5. [Exists], [Fetch] and [Resume] make no call that writes to the store:
    they put no content and no tombstone, whatever the collaborators
    answer. *)
Theorem reads_make_no_write (ls : layerStore) (dgst : Digest) (uuid : string) (w : W) :
  filter writes (calls h (layerstore.Exists ls dgst) w) = []
  /\ filter writes (calls h (layerstore.Fetch ls dgst) w) = []
  /\ filter writes (calls h (layerstore.Resume Parse ls uuid) w) = [].
Proof.
  split; [apply Exists_makes_no_write|]. split.
  - unfold layerstore.Fetch. rewrite calls_bind, filter_app, Exists_makes_no_write.
    destruct (run h (layerstore.Exists ls dgst) w) as [[b [e|]] w1]; cbn [fst snd app];
      [reflexivity|].
    destruct b; cbn [negb]; [|reflexivity].
    rewrite calls_bind, filter_app, path_makes_no_write.
    destruct (run h (layerstore.path ls dgst) w1) as [[bp|e] w2]; cbn [fst snd app];
      [|reflexivity].
    unfold calls, perform. cbn [bind trace]. repeat next_reply; reflexivity.
  - unfold calls. open_method. repeat next_reply; reflexivity.
Qed.

(** X6. [Resume] draws no token and does not read the clock: the session it
    returns, when every call succeeds and the marker parses, is bound to the
    store, to the token it was given and to the time read from the marker,
    with the writer allocated at the data path of that token and a tombstone
    manager made of the default path mapper and the driver of the
    repository. *)
Theorem Resume_session (ls : layerStore) (uuid : string) (w : W) :
  forallb (fun c => negb (drawsFresh c)) (calls h (layerstore.Resume Parse ls uuid) w) = true
  /\ (forall sp bytes startedAt path fw dg w1 w2 w3 w4 w5,
      h (pm_path (pm (ls_repository ls))
           (uploadStartedAtPathSpec (Name (ls_repository ls)) uuid)) w = (inl sp, w1) ->
      h (driver_GetContent (driver (ls_repository ls)) sp) w1 = (inl bytes, w2) ->
      Parse (string_of_list_byte bytes) = inl startedAt ->
      h (pm_path (pm (ls_repository ls))
           (uploadDataPathSpec (Name (ls_repository ls)) uuid)) w2 = (inl path, w3) ->
      h (newFileWriter (driver (ls_repository ls)) path) w3 = (inl fw, w4) ->
      h (setupResumableDigester uuid) w4 = (dg, w5) ->
      run h (layerstore.Resume Parse ls uuid) w
      = (inl {| lw_layerStore := ls;
                lw_uuid := uuid;
                lw_startedAt := startedAt;
                lw_bufferedFileWriter := fw;
                lw_tomb := {| tomb_pm := defaultPathMapper;
                              tomb_driver := driver (ls_repository ls) |};
                lw_resumableDigester := dg |}, w5)).
Proof.
  split.
  - unfold calls. open_method. repeat next_reply; reflexivity.
  - intros sp bytes startedAt path fw dg w1 w2 w3 w4 w5 Hsp Hget Hparse Hdata Hfw Hdg.
    open_method. reply_is Hsp. reply_is Hget. rewrite Hparse. cbn [run bind].
    reply_is Hdata. reply_is Hfw. reply_is Hdg. reflexivity.
Qed.

(** ** Upload *)

(** X7. When a path mapping fails, [Upload] returns its error and has written
    nothing: the started-at marker is not put. *)
Theorem Upload_mapping_fails (ls : layerStore) (uuid : string) (startedAt : Time)
    (w wa wb : W) :
  h uuid_New w = (uuid, wa) ->
  h time_Now_UTC wa = (startedAt, wb) ->
  (forall e wc,
      h (pm_path (pm (ls_repository ls))
           (uploadDataPathSpec (Name (ls_repository ls)) uuid)) wb = (inr e, wc) ->
      run h (layerstore.Upload Format ls) w = (inr e, wc)
      /\ filter writes (calls h (layerstore.Upload Format ls) w) = [])
  /\ (forall path e wc wd,
      h (pm_path (pm (ls_repository ls))
           (uploadDataPathSpec (Name (ls_repository ls)) uuid)) wb = (inl path, wc) ->
      h (pm_path (pm (ls_repository ls))
           (uploadStartedAtPathSpec (Name (ls_repository ls)) uuid)) wc = (inr e, wd) ->
      run h (layerstore.Upload Format ls) w = (inr e, wd)
      /\ filter writes (calls h (layerstore.Upload Format ls) w) = []).
Proof.
  intros Hu Hn. unfold calls. split.
  - intros e wc Hd. split; open_method; reply_is Hu; reply_is Hn; reply_is Hd; reflexivity.
  - intros path e wc wd Hd Hs.
    split; open_method; reply_is Hu; reply_is Hn; reply_is Hd; reply_is Hs; reflexivity.
Qed.

(** X8. When the marker is written and the writer cannot be allocated,
    [Upload] returns the error of the allocation; the marker has been put
    and no call follows the failed allocation: the marker is left behind.
    When the write of the marker fails, [Upload] returns that error and does
    not try to allocate the writer. *)
Theorem Upload_leaves_marker (ls : layerStore) (uuid path sp : string) (startedAt : Time)
    (w wa wb wc wd : W) :
  h uuid_New w = (uuid, wa) ->
  h time_Now_UTC wa = (startedAt, wb) ->
  h (pm_path (pm (ls_repository ls))
       (uploadDataPathSpec (Name (ls_repository ls)) uuid)) wb = (inl path, wc) ->
  h (pm_path (pm (ls_repository ls))
       (uploadStartedAtPathSpec (Name (ls_repository ls)) uuid)) wc = (inl sp, wd) ->
  (forall e we wf,
      h (driver_PutContent (driver (ls_repository ls)) sp
           (list_byte_of_string (Format startedAt))) wd = (None, we) ->
      h (newFileWriter (driver (ls_repository ls)) path) we = (inr e, wf) ->
      run h (layerstore.Upload Format ls) w = (inr e, wf)
      /\ calls h (layerstore.Upload Format ls) w
         = [uuid_New; time_Now_UTC;
            pm_path (pm (ls_repository ls))
              (uploadDataPathSpec (Name (ls_repository ls)) uuid);
            pm_path (pm (ls_repository ls))
              (uploadStartedAtPathSpec (Name (ls_repository ls)) uuid);
            driver_PutContent (driver (ls_repository ls)) sp
              (list_byte_of_string (Format startedAt));
            newFileWriter (driver (ls_repository ls)) path])
  /\ (forall e we,
      h (driver_PutContent (driver (ls_repository ls)) sp
           (list_byte_of_string (Format startedAt))) wd = (Some e, we) ->
      run h (layerstore.Upload Format ls) w = (inr e, we)
      /\ calls h (layerstore.Upload Format ls) w
         = [uuid_New; time_Now_UTC;
            pm_path (pm (ls_repository ls))
              (uploadDataPathSpec (Name (ls_repository ls)) uuid);
            pm_path (pm (ls_repository ls))
              (uploadStartedAtPathSpec (Name (ls_repository ls)) uuid);
            driver_PutContent (driver (ls_repository ls)) sp
              (list_byte_of_string (Format startedAt))]).
Proof.
  intros Hu Hn Hd Hs. unfold calls. split.
  - intros e we wf Hput Hfw.
    split; open_method; reply_is Hu; reply_is Hn; reply_is Hd; reply_is Hs;
      reply_is Hput; reply_is Hfw; reflexivity.
  - intros e we Hput.
    split; open_method; reply_is Hu; reply_is Hn; reply_is Hd; reply_is Hs;
      reply_is Hput; reflexivity.
Qed.

(** ** Fetch *)

(** X9. Whenever [Fetch] returns a reader, [Exists] in the same state returns
    (true, nil). *)
Theorem Fetch_implies_Exists (ls : layerStore) (dgst : Digest) (lr : layerReader) (w : W) :
  fst (run h (layerstore.Fetch ls dgst) w) = inl lr ->
  fst (run h (layerstore.Exists ls dgst) w) = (true, None).
Proof.
  unfold layerstore.Fetch. rewrite run_bind.
  destruct (run h (layerstore.Exists ls dgst) w) as [[b [e|]] w1]; cbn [fst snd];
    [discriminate|].
  destruct b; cbn [negb]; [reflexivity|discriminate].
Qed.

(** X10. After [Exists] has answered (true, nil), [Fetch] resolves the link a
    second time, in the state [Exists] left: an error of that resolution is
    what [Fetch] returns, an unknown-layer error if the link is gone by then;
    otherwise the reader is opened at the path the second resolution gave, an
    error of the opening is returned, and a reader that opens is returned
    with the digest. *)
Theorem Fetch_resolves_again (ls : layerStore) (dgst : Digest) (w w1 : W) :
  run h (layerstore.Exists ls dgst) w = ((true, None), w1) ->
  (forall e w2,
      run h (layerstore.path ls dgst) w1 = (inr e, w2) ->
      run h (layerstore.Fetch ls dgst) w = (inr e, w2))
  /\ (forall bp e w2 w3,
      run h (layerstore.path ls dgst) w1 = (inl bp, w2) ->
      h (newFileReader (driver (ls_repository ls)) bp) w2 = (inr e, w3) ->
      run h (layerstore.Fetch ls dgst) w = (inr e, w3))
  /\ (forall bp fr w2 w3,
      run h (layerstore.path ls dgst) w1 = (inl bp, w2) ->
      h (newFileReader (driver (ls_repository ls)) bp) w2 = (inl fr, w3) ->
      run h (layerstore.Fetch ls dgst) w
      = (inl {| lr_fileReader := fr; lr_digest := dgst |}, w3))
  /\ calls h (layerstore.Fetch ls dgst) w
     = calls h (layerstore.Exists ls dgst) w
       ++ calls h (layerstore.path ls dgst) w1
       ++ match fst (run h (layerstore.path ls dgst) w1) with
          | inl bp => [newFileReader (driver (ls_repository ls)) bp]
          | inr _ => []
          end.
Proof.
  intros Hex. unfold layerstore.Fetch.
  rewrite calls_bind, !run_bind, Hex. cbn [fst snd negb].
  rewrite calls_bind, !run_bind.
  repeat split.
  - intros e w2 Hp. rewrite Hp. reflexivity.
  - intros bp e w2 w3 Hp Hr. rewrite Hp. cbn [fst snd]. unfold perform.
    cbn [bind run]. rewrite Hr. reflexivity.
  - intros bp fr w2 w3 Hp Hr. rewrite Hp. cbn [fst snd]. unfold perform.
    cbn [bind run]. rewrite Hr. reflexivity.
  - destruct (run h (layerstore.path ls dgst) w1) as [[bp|e] w2]; cbn [fst snd].
    + unfold calls, perform. cbn [bind trace].
      destruct (h (newFileReader (driver (ls_repository ls)) bp) w2) as [[fr|e] w3];
        reflexivity.
    + reflexivity.
Qed.

(** ** Resume *)

(** X11. [Resume] fails only with the error of a path mapping or of the
    allocation of the writer, with what the read of the marker failed with
    (the unknown-upload error in place of the driver's not-found error), or
    with the error of the parser on the content of the marker. *)
Theorem Resume_fails_only_if (ls : layerStore) (uuid : string) (e : error) (w : W) :
  fst (run h (layerstore.Resume Parse ls uuid) w) = inr e ->
  (exists ev, In ev (trace h (layerstore.Resume Parse ls uuid) w) /\ failure ev = Some e)
  \/ (exists sp e',
        In (Ev (driver_GetContent (driver (ls_repository ls)) sp) (inr e'))
          (trace h (layerstore.Resume Parse ls uuid) w)
        /\ e = if isPathNotFound e' then ErrLayerUploadUnknown else e')
  \/ (exists sp bytes,
        In (Ev (driver_GetContent (driver (ls_repository ls)) sp) (inl bytes))
          (trace h (layerstore.Resume Parse ls uuid) w)
        /\ Parse (string_of_list_byte bytes) = inr e).
Proof.
  open_method.
  destruct (h (pm_path (pm (ls_repository ls))
                 (uploadStartedAtPathSpec (Name (ls_repository ls)) uuid)) w)
    as [[sp|e0] w1]; cbn [run trace bind fst].
  2: { intros [= <-]. left. eexists. split; [left; reflexivity|reflexivity]. }
  destruct (h (driver_GetContent (driver (ls_repository ls)) sp) w1)
    as [[bytes|e1] w2]; cbn [run trace bind fst].
  2: { intros He. right. left. exists sp, e1. split; [right; left; reflexivity|].
       destruct e1; cbn [run fst] in He; injection He as <-; reflexivity. }
  destruct (Parse (string_of_list_byte bytes)) as [startedAt|e2] eqn:Hparse;
    cbn [run trace bind fst].
  2: { intros [= <-]. right. right. exists sp, bytes.
       split; [right; left; reflexivity|exact Hparse]. }
  destruct (h (pm_path (pm (ls_repository ls))
                 (uploadDataPathSpec (Name (ls_repository ls)) uuid)) w2)
    as [[path|e3] w3]; cbn [run trace bind fst].
  2: { intros [= <-]. left. eexists. split; [do 2 right; left; reflexivity|reflexivity]. }
  destruct (h (newFileWriter (driver (ls_repository ls)) path) w3)
    as [[fw|e4] w4]; cbn [run trace bind fst].
  2: { intros [= <-]. left. eexists. split; [do 3 right; left; reflexivity|reflexivity]. }
  destruct (h (setupResumableDigester uuid) w4) as [dg w5]. cbn [run fst]. discriminate.
Qed.

(** ** Blob paths *)

Ltac find_event := cbn [In]; repeat (first [left; reflexivity | right]).

(** X12. The blob store is asked to resolve only the link path that the path
    mapper gave for the repository and the digest, and a blob path is handed
    to the driver, for the stat of [Exists] or for the reader of [Fetch],
    only if it is what the blob store resolved such a link to: no blob is
    touched but through the link of the repository. *)
Theorem blob_paths_come_from_links (ls : layerStore) (dgst : Digest) (w : W) :
  (forall bs lp,
      In (blobStore_resolve bs lp) (calls h (layerstore.Fetch ls dgst) w) ->
      bs = repo_blobStore (ls_repository ls)
      /\ In (Ev (pm_path (pm (ls_repository ls))
                   (layerLinkPathSpec (Name (ls_repository ls)) dgst)) (inl lp))
           (trace h (layerstore.Fetch ls dgst) w))
  /\ (forall d p,
      In (driver_Stat d p) (calls h (layerstore.Exists ls dgst) w) ->
      d = driver (ls_repository ls)
      /\ exists lp,
           In (Ev (blobStore_resolve (repo_blobStore (ls_repository ls)) lp) (inl p))
             (trace h (layerstore.Exists ls dgst) w))
  /\ (forall d p,
      In (newFileReader d p) (calls h (layerstore.Fetch ls dgst) w) ->
      d = driver (ls_repository ls)
      /\ exists lp,
           In (Ev (blobStore_resolve (repo_blobStore (ls_repository ls)) lp) (inl p))
             (trace h (layerstore.Fetch ls dgst) w)).
Proof.
  unfold calls. split; [|split]; intros a b; open_method; repeat next_reply;
    cbn [In map ev_call]; intros Hin;
    repeat (destruct Hin as [Hin|Hin]; try discriminate Hin);
    try contradiction;
    injection Hin as <- <-;
    first [ solve [split; [reflexivity|find_event]]
          | solve [split; [reflexivity|eexists; find_event]] ].
Qed.

End LayerStoreMore.

(** * The marker and the data path of an upload *)

Section Markers.

Context {W : Type} (h : handler W).

Lemma Upload_marker_holds (Format : Time -> string) (Hs : StoreContract h)
    (ls : layerStore) (lw : layerWriter) (w w1 : W) :
  run h (layerstore.Upload Format ls) w = (inl lw, w1) ->
  exists sp,
    fst (h (pm_path (pm (ls_repository ls))
              (uploadStartedAtPathSpec (Name (ls_repository ls)) (lw_uuid lw))) w1)
    = inl sp
    /\ holds h (driver (ls_repository ls)) sp
         (list_byte_of_string (Format (lw_startedAt lw))) w1.
Proof.
  intros Hup.
  destruct (Upload_succeeds_inv h Format ls lw w w1 Hup)
    as (path & sp & fw & dg & wa & wb & wc & wd & we & wf
        & _ & _ & _ & Hsp & Hput & Hfw & Hdg).
  exists sp. split.
  - rewrite (pm_path_pure h Hs _ _ w1 wc), Hsp. reflexivity.
  - pose proof (put_then_get h Hs _ _ _ _ _ Hput) as Hholds.
    apply (content_stays h Hs _ _ _ (newFileWriter (driver (ls_repository ls)) path))
      in Hholds; [|reflexivity].
    rewrite Hfw in Hholds. cbn [snd] in Hholds.
    apply (content_stays h Hs _ _ _ (setupResumableDigester (lw_uuid lw)))
      in Hholds; [|reflexivity].
    rewrite Hdg in Hholds. exact Hholds.
Qed.

(** X13. For a store that keeps its contract, once [Upload] has returned a
    session, the driver holds the formatted start time of the session at the
    started-at path of its token, and [Resume] of that token begins by
    mapping that path and reading that content from it. *)
Theorem Upload_persists_start_time (Format : Time -> string)
    (Parse : string -> result Time) (Hs : StoreContract h)
    (ls : layerStore) (lw : layerWriter) (w w1 : W) :
  run h (layerstore.Upload Format ls) w = (inl lw, w1) ->
  exists sp,
    fst (h (pm_path (pm (ls_repository ls))
              (uploadStartedAtPathSpec (Name (ls_repository ls)) (lw_uuid lw))) w1)
    = inl sp
    /\ holds h (driver (ls_repository ls)) sp
         (list_byte_of_string (Format (lw_startedAt lw))) w1
    /\ exists rest,
         trace h (layerstore.Resume Parse ls (lw_uuid lw)) w1
         = Ev (pm_path (pm (ls_repository ls))
                 (uploadStartedAtPathSpec (Name (ls_repository ls)) (lw_uuid lw)))
              (inl sp)
           :: Ev (driver_GetContent (driver (ls_repository ls)) sp)
                (inl (list_byte_of_string (Format (lw_startedAt lw))))
           :: rest.
Proof.
  intros Hup.
  destruct (Upload_marker_holds Format Hs ls lw w w1 Hup) as (sp & Hsp & Hholds).
  exists sp. split; [exact Hsp|]. split; [exact Hholds|].
  apply (content_stays h Hs _ _ _
           (pm_path (pm (ls_repository ls))
              (uploadStartedAtPathSpec (Name (ls_repository ls)) (lw_uuid lw))))
    in Hholds; [|reflexivity].
  unfold layerstore.Resume, perform. cbn [trace bind].
  destruct (h (pm_path (pm (ls_repository ls))
                 (uploadStartedAtPathSpec (Name (ls_repository ls)) (lw_uuid lw))) w1)
    as [r1 w2]. cbn [fst snd] in Hsp, Hholds. subst r1. cbn [trace bind].
  unfold holds in Hholds.
  destruct (h (driver_GetContent (driver (ls_repository ls)) sp) w2) as [r2 w3].
  cbn [fst] in Hholds. subst r2. eexists. reflexivity.
Qed.

(** X14. For a store that keeps its contract, [Resume] of the token of a
    session that [Upload] returned allocates its writer at the data path at
    which [Upload] allocated the writer of that session, and the writer of
    the resumed session is the one that allocation returned. *)
Theorem Resume_reopens_data_path (Hs : StoreContract h)
    (ls : layerStore) (lw : layerWriter) (w w1 : W) :
  0 <= gotime.Year (lw_startedAt lw) <= 9999 ->
  run h (layerstore.Upload gotime.Format ls) w = (inl lw, w1) ->
  exists path,
    In (newFileWriter (driver (ls_repository ls)) path)
      (calls h (layerstore.Upload gotime.Format ls) w)
    /\ In (newFileWriter (driver (ls_repository ls)) path)
         (calls h (layerstore.Resume gotime.Parse ls (lw_uuid lw)) w1)
    /\ (forall lw',
          fst (run h (layerstore.Resume gotime.Parse ls (lw_uuid lw)) w1) = inl lw' ->
          In (Ev (newFileWriter (driver (ls_repository ls)) path)
                (inl (lw_bufferedFileWriter lw')))
            (trace h (layerstore.Resume gotime.Parse ls (lw_uuid lw)) w1)).
Proof.
  intros Hyear Hup.
  destruct (Upload_succeeds_inv h gotime.Format ls lw w w1 Hup)
    as (path & sp & fw & dg & wa & wb & wc & wd & we & wf
        & Hu & Hn & Hdata & Hsp & Hput & Hfw & Hdg).
  destruct (Upload_marker_holds gotime.Format Hs ls lw w w1 Hup) as (sp' & Hsp' & Hholds).
  exists path. split.
  - unfold calls, layerstore.Upload, layerstore.newLayerUpload, perform.
    cbn [trace bind]. rewrite Hu. cbn [trace bind]. rewrite Hn. cbn [trace bind].
    rewrite Hdata. cbn [trace bind]. rewrite Hsp. cbn [trace bind].
    rewrite Hput. cbn [trace bind]. rewrite Hfw. cbn [trace bind map ev_call In].
    do 5 right. left. reflexivity.
  - set (uuid := lw_uuid lw) in *. set (S := lw_startedAt lw) in *.
    apply (content_stays h Hs _ _ _
             (pm_path (pm (ls_repository ls))
                (uploadStartedAtPathSpec (Name (ls_repository ls)) uuid)))
      in Hholds; [|reflexivity].
    unfold calls, layerstore.Resume, layerstore.newLayerUpload, perform.
    cbn [run trace bind].
    destruct (h (pm_path (pm (ls_repository ls))
                   (uploadStartedAtPathSpec (Name (ls_repository ls)) uuid)) w1)
      as [r1 w2]. cbn [fst snd] in Hsp', Hholds. subst r1. cbn [run trace bind].
    unfold holds in Hholds.
    destruct (h (driver_GetContent (driver (ls_repository ls)) sp') w2) as [r2 w3].
    cbn [fst] in Hholds. subst r2. cbn [run trace bind].
    rewrite string_of_list_byte_of_string.
    rewrite (gotime_facts.Parse_Format S Hyear). cbn [run trace bind].
    pose proof (pm_path_pure h Hs (pm (ls_repository ls))
                  (uploadDataPathSpec (Name (ls_repository ls)) uuid) w3 wb) as Hdata'.
    rewrite Hdata in Hdata'. cbn [fst] in Hdata'.
    destruct (h (pm_path (pm (ls_repository ls))
                   (uploadDataPathSpec (Name (ls_repository ls)) uuid)) w3)
      as [r3 w4]. cbn [fst] in Hdata'. subst r3. cbn [run trace bind].
    destruct (h (newFileWriter (driver (ls_repository ls)) path) w4) as [[fw'|e] w5];
      cbn [run trace bind map ev_call In fst].
    + destruct (h (setupResumableDigester uuid) w5) as [dg' w6].
      cbn [run trace bind map ev_call In fst]. split.
      * do 3 right. left. reflexivity.
      * intros lw' [= <-]. cbn [lw_bufferedFileWriter set_resumableDigester].
        do 3 right. left. reflexivity.
    + split; [do 3 right; left; reflexivity|discriminate].
Qed.

End Markers.

(** * More of the statements at work on the sample registry *)

Section MoreSamples.

Import inmemory.

Local Abbreviation h := collaborators.

Ltac by_running :=
  first [ apply result_and_world; [vm_compute; reflexivity | reflexivity]
        | vm_compute; reflexivity ].
Ltac find_call := vm_compute; repeat (first [left; reflexivity | right]).

Lemma path_hides_not_found_witness :
  run (scripted rejectedName) (layerstore.path sampleStore sampleDigest) tt
  = (inr (OtherError "invalid repository name"), tt)
  /\ run h (layerstore.path sampleStore sampleDigest) emptyWorld
     = (inr (ErrUnknownLayer sampleDigest), emptyWorld)
  /\ run h (layerstore.path sampleStore sampleDigest) linkedWorld
     = (inl sampleBlobPath, linkedWorld).
Proof.
  split; [|split].
  - destruct (path_hides_not_found (scripted rejectedName) sampleStore sampleDigest tt)
      as (Hmapper & _).
    apply (Hmapper (OtherError "invalid repository name") tt). reflexivity.
  - destruct (path_hides_not_found h sampleStore sampleDigest emptyWorld)
      as (_ & Hlink).
    destruct (Hlink sampleLinkPath emptyWorld ltac:(by_running)) as (Hmissing & _).
    apply (Hmissing sampleLinkPath emptyWorld). by_running.
  - destruct (path_hides_not_found h sampleStore sampleDigest linkedWorld)
      as (_ & Hlink).
    destruct (Hlink sampleLinkPath linkedWorld ltac:(by_running)) as (_ & Hfound & _).
    apply (Hfound sampleBlobPath linkedWorld). by_running.
Defined.

Lemma Exists_true_iff_witness :
  fst (fst (run h (layerstore.Exists sampleStore sampleDigest) linkedWorld)) = true
  /\ snd (fst (run h (layerstore.Exists sampleStore sampleDigest) linkedWorld)) = None.
Proof.
  destruct (Exists_true_iff h sampleStore sampleDigest linkedWorld) as ((_ & Hback) & Hnil).
  assert (Htrue : fst (fst (run h (layerstore.Exists sampleStore sampleDigest) linkedWorld))
                  = true).
  { apply Hback.
    exists sampleLinkPath, sampleBlobPath, {| fi_path := sampleBlobPath; fi_size := 11 |},
      linkedWorld, linkedWorld, linkedWorld, linkedWorld.
    repeat split; by_running. }
  split; [exact Htrue|exact (Hnil Htrue)].
Defined.

Lemma tombstone_check_fails_witness :
  run h (layerstore.Exists sampleStore sampleDigest) downWorld
  = ((false, Some (OtherError "i/o timeout")), downWorld)
  /\ run h (layerstore.Fetch sampleStore sampleDigest) downWorld
     = (inr (OtherError "i/o timeout"), downWorld)
  /\ run h (layerstore.Delete sampleStore sampleDigest) downWorld
     = (Some (OtherError "i/o timeout"), downWorld).
Proof.
  destruct (tombstone_check_fails h sampleStore sampleDigest (OtherError "i/o timeout")
              downWorld downWorld ltac:(by_running))
    as ((Hexists & _) & (Hfetch & _) & (Hdelete & _)).
  split; [exact Hexists|]. split; [exact Hfetch|exact Hdelete].
Defined.

Lemma Delete_result_witness :
  run h (layerstore.Delete sampleStore sampleDigest) linkedWorld = (None, deletedWorld)
  /\ run (scripted readOnlyStore) (layerstore.Delete sampleStore sampleDigest) tt
     = (Some (OtherError "read-only file system"), tt).
Proof.
  split.
  - destruct (Delete_result h sampleStore sampleDigest linkedWorld) as (Hiff & _).
    apply Hiff. exists linkedWorld. split; by_running.
  - destruct (Delete_result (scripted readOnlyStore) sampleStore sampleDigest tt)
      as (_ & Hput).
    apply (Hput (OtherError "read-only file system") tt tt); reflexivity.
Defined.

Lemma Resume_session_witness :
  fst (run h (layerstore.Resume gotime.Parse sampleStore "6b3c") uploadedWorld)
  = inl {| lw_layerStore := sampleStore;
           lw_uuid := "6b3c";
           lw_startedAt := mkTime 1425556800 0;
           lw_bufferedFileWriter :=
             {| fw_driver := 0%nat; fw_path := sampleDataPath; fw_size := 0 |};
           lw_tomb := {| tomb_pm := defaultPathMapper; tomb_driver := 0%nat |};
           lw_resumableDigester := Some [] |}.
Proof.
  destruct (Resume_session h gotime.Parse sampleStore "6b3c" uploadedWorld) as (_ & Hok).
  rewrite (Hok sampleStartedAtPath (list_byte_of_string "2015-03-05T12:00:00Z")
             (mkTime 1425556800 0) sampleDataPath
             {| fw_driver := 0%nat; fw_path := sampleDataPath; fw_size := 0 |} (Some [])
             uploadedWorld uploadedWorld uploadedWorld uploadedWorld uploadedWorld
             ltac:(by_running) ltac:(by_running) ltac:(by_running)
             ltac:(by_running) ltac:(by_running) ltac:(by_running)).
  reflexivity.
Defined.

Lemma Upload_mapping_fails_witness :
  run (scripted rejectedName) (layerstore.Upload gotime.Format sampleStore) tt
  = (inr (OtherError "invalid repository name"), tt).
Proof.
  destruct (Upload_mapping_fails (scripted rejectedName) gotime.Format sampleStore
              "6b3c" sampleTime tt tt tt eq_refl eq_refl) as (Hdata & _).
  apply (Hdata (OtherError "invalid repository name") tt). reflexivity.
Defined.

Lemma Upload_leaves_marker_witness :
  run (scripted writerDenied) (layerstore.Upload gotime.Format sampleStore) tt
  = (inr (OtherError "cannot write to a directory"), tt)
  /\ run (scripted readOnlyStore) (layerstore.Upload gotime.Format sampleStore) tt
     = (inr (OtherError "read-only file system"), tt).
Proof.
  split.
  - destruct (Upload_leaves_marker (scripted writerDenied) gotime.Format sampleStore
                "6b3c" sampleDataPath sampleStartedAtPath sampleTime tt tt tt tt tt
                eq_refl eq_refl ltac:(by_running) ltac:(by_running)) as (Hwriter & _).
    apply (Hwriter (OtherError "cannot write to a directory") tt tt); reflexivity.
  - destruct (Upload_leaves_marker (scripted readOnlyStore) gotime.Format sampleStore
                "6b3c" sampleDataPath sampleStartedAtPath sampleTime tt tt tt tt tt
                eq_refl eq_refl ltac:(by_running) ltac:(by_running)) as (_ & Hmarker).
    apply (Hmarker (OtherError "read-only file system") tt); reflexivity.
Defined.

Lemma Fetch_implies_Exists_witness :
  fst (run h (layerstore.Exists sampleStore sampleDigest) linkedWorld) = (true, None).
Proof.
  apply (Fetch_implies_Exists h sampleStore sampleDigest
           {| lr_fileReader :=
                {| fr_driver := 0%nat; fr_path := sampleBlobPath; fr_size := 11 |};
              lr_digest := sampleDigest |} linkedWorld).
  vm_compute. reflexivity.
Defined.

Lemma Fetch_resolves_again_witness :
  run vanishingLink (layerstore.Exists sampleStore sampleDigest) 0%nat = ((true, None), 1%nat)
  /\ run vanishingLink (layerstore.Fetch sampleStore sampleDigest) 0%nat
     = (inr (ErrUnknownLayer sampleDigest), 2%nat)
  /\ fst (run h (layerstore.Fetch sampleStore sampleDigest) linkedWorld)
     = inl {| lr_fileReader :=
                {| fr_driver := 0%nat; fr_path := sampleBlobPath; fr_size := 11 |};
              lr_digest := sampleDigest |}.
Proof.
  assert (Hex : run vanishingLink (layerstore.Exists sampleStore sampleDigest) 0%nat
                = ((true, None), 1%nat)) by reflexivity.
  split; [exact Hex|]. split.
  - destruct (Fetch_resolves_again vanishingLink sampleStore sampleDigest 0%nat 1%nat Hex)
      as (Hgone & _).
    apply Hgone. reflexivity.
  - destruct (Fetch_resolves_again h sampleStore sampleDigest linkedWorld linkedWorld
                ltac:(by_running)) as (_ & _ & Hopen & _).
    rewrite (Hopen sampleBlobPath
               {| fr_driver := 0%nat; fr_path := sampleBlobPath; fr_size := 11 |}
               linkedWorld linkedWorld ltac:(by_running) ltac:(by_running)).
    reflexivity.
Defined.

Lemma Resume_fails_only_if_witness :
  exists sp e',
    In (Ev (driver_GetContent (driver (ls_repository sampleStore)) sp) (inr e'))
      (trace h (layerstore.Resume gotime.Parse sampleStore "6b3c") emptyWorld)
    /\ ErrLayerUploadUnknown = if isPathNotFound e' then ErrLayerUploadUnknown else e'.
Proof.
  destruct (Resume_fails_only_if h gotime.Parse sampleStore "6b3c" ErrLayerUploadUnknown
              emptyWorld ltac:(vm_compute; reflexivity)) as [Hcall|[Hread|Hparse]].
  - exfalso. destruct Hcall as (ev & Hin & Hfail). vm_compute in Hin.
    destruct Hin as [<-|[<-|[]]]; discriminate Hfail.
  - exact Hread.
  - exfalso. destruct Hparse as (sp & bytes & Hin & _). vm_compute in Hin.
    destruct Hin as [Hin|[Hin|[]]].
    + apply (f_equal ev_call) in Hin. discriminate Hin.
    + apply (f_equal (fun ev => match ev with
                                | Ev (driver_GetContent _ _) (inl _) => true
                                | _ => false
                                end)) in Hin. discriminate Hin.
Defined.

Lemma blob_paths_come_from_links_witness :
  exists lp,
    In (Ev (blobStore_resolve (repo_blobStore (ls_repository sampleStore)) lp)
          (inl sampleBlobPath))
      (trace h (layerstore.Exists sampleStore sampleDigest) linkedWorld).
Proof.
  destruct (blob_paths_come_from_links h sampleStore sampleDigest linkedWorld)
    as (_ & Hstat & _).
  destruct (Hstat 0%nat sampleBlobPath ltac:(find_call)) as (_ & Hlink).
  exact Hlink.
Defined.

Lemma Upload_persists_start_time_witness :
  exists sp,
    fst (h (pm_path (pm (ls_repository sampleStore))
              (uploadStartedAtPathSpec (Name (ls_repository sampleStore))
                 (lw_uuid sampleSession))) uploadedWorld) = inl sp
    /\ holds h (driver (ls_repository sampleStore)) sp
         (list_byte_of_string (gotime.Format (lw_startedAt sampleSession))) uploadedWorld.
Proof.
  destruct (Upload_persists_start_time h gotime.Format gotime.Parse inmemory_store
              sampleStore sampleSession emptyWorld uploadedWorld ltac:(by_running))
    as (sp & Hsp & Hholds & _).
  exists sp. split; [exact Hsp|exact Hholds].
Defined.

Lemma Resume_reopens_data_path_witness :
  exists path,
    In (newFileWriter (driver (ls_repository sampleStore)) path)
      (calls h (layerstore.Upload gotime.Format sampleStore) emptyWorld)
    /\ In (newFileWriter (driver (ls_repository sampleStore)) path)
         (calls h (layerstore.Resume gotime.Parse sampleStore (lw_uuid sampleSession))
            uploadedWorld).
Proof.
  destruct (Resume_reopens_data_path h inmemory_store sampleStore sampleSession
              emptyWorld uploadedWorld
              ltac:(vm_compute; split; discriminate) ltac:(by_running))
    as (path & Hup & Hres & _).
  exists path. split; [exact Hup|exact Hres].
Defined.

End MoreSamples.
